(** * Crypto swing-trading analyser: indicators, scoring and selection

    A shallow embedding of the analytical core of the repository:
    - [src/technical_analyzer.py]  (class [TechnicalAnalyzer]),
    - [src/scoring_selector.py]    (class [ScoringSelector], dataclass
      [CryptoSignal]),
    - [src/telegram_notifier.py]   (class [TelegramNotifier]),
    - [src/app.py]                 (function [run_crypto_analysis]).

    Conventions of the embedding.

    - Numbers.  A Python [int] or [float] is a [number]: an exact rational,
      or one of the three IEEE 754 specials (+inf, -inf, NaN).  Binary64
      rounding error is not modelled, and zero carries no sign.  The
      specials matter because the numpy divisions of the source do not
      raise on a zero divisor: they yield an infinity or NaN, which the
      source then tests with [pd.notna] or with comparisons.
    - Dynamic values.  The records handed from one agent to the next are
      Python dicts; they are modelled by [pyval], and every subscript,
      method call and arithmetic operator raises what Python raises when
      the value has the wrong kind or the key is missing.
    - Effects.  Exceptions are the [res] monad.  The wall clock is an
      argument.  Logging and the JSON files the agents write are left out.
    - Messages.  A call of the notifier is the list of the texts handed to
      [send_message], in order, with the way the call ended.  How a number
      or a value is rendered ([format], [str]) is an argument; which
      fields are read, in which order, and what they raise is modelled.
    - pandas.  A [Series] is a list; the operations are modelled by their
      documented meaning on series without missing values. *)

From Stdlib Require Import QArith Qround Qabs Lqa Lia ZArith.
From Stdlib Require Import List String Ascii Bool Sorted Permutation.
Import ListNotations.
Open Scope string_scope.
Open Scope list_scope.
Open Scope Q_scope.

(* ================================================================== *)
(** * Numbers *)
(* ================================================================== *)

Inductive number : Type :=
| Fin (q : Q)
| PInf
| NInf
| NaN.

Definition Qltb (a b : Q) : bool := negb (Qle_bool b a).

(** Sign of a rational: what decides the IEEE result of an operation
    with an infinite operand or a zero divisor. *)
Definition sign_case {A : Type} (q : Q) (neg zero pos : A) : A :=
  match q ?= 0 with
  | Lt => neg
  | Eq => zero
  | Gt => pos
  end.

Definition nneg (x : number) : number :=
  match x with
  | Fin q => Fin (- q)
  | PInf => NInf
  | NInf => PInf
  | NaN => NaN
  end.

Definition nabs (x : number) : number :=
  match x with
  | Fin q => Fin (Qabs q)
  | PInf | NInf => PInf
  | NaN => NaN
  end.

Definition nadd (x y : number) : number :=
  match x, y with
  | NaN, _ | _, NaN => NaN
  | Fin a, Fin b => Fin (a + b)
  | PInf, NInf | NInf, PInf => NaN
  | PInf, _ | _, PInf => PInf
  | NInf, _ | _, NInf => NInf
  end.

Definition nsub (x y : number) : number := nadd x (nneg y).

Definition nmul (x y : number) : number :=
  match x, y with
  | NaN, _ | _, NaN => NaN
  | Fin a, Fin b => Fin (a * b)
  | Fin a, PInf | PInf, Fin a => sign_case a NInf NaN PInf
  | Fin a, NInf | NInf, Fin a => sign_case a PInf NaN NInf
  | PInf, PInf | NInf, NInf => PInf
  | PInf, NInf | NInf, PInf => NInf
  end.

(** numpy's division (and Python's, once the divisor is known not to be
    zero): a zero divisor gives an infinity of the dividend's sign, or
    NaN for 0/0. *)
Definition ndiv (x y : number) : number :=
  match x, y with
  | NaN, _ | _, NaN => NaN
  | Fin a, Fin b =>
      if Qeq_bool b 0 then sign_case a NInf NaN PInf else Fin (a / b)
  | Fin _, PInf | Fin _, NInf => Fin 0
  | PInf, Fin b => sign_case b NInf PInf PInf
  | NInf, Fin b => sign_case b PInf NInf NInf
  | PInf, PInf | PInf, NInf | NInf, PInf | NInf, NInf => NaN
  end.

(** Comparisons: every comparison with NaN is false. *)
Definition nlt (x y : number) : bool :=
  match x, y with
  | NaN, _ | _, NaN => false
  | Fin a, Fin b => Qltb a b
  | NInf, NInf | PInf, _ => false
  | NInf, _ | Fin _, PInf => true
  | Fin _, NInf => false
  end.

Definition nle (x y : number) : bool :=
  match x, y with
  | NaN, _ | _, NaN => false
  | Fin a, Fin b => Qle_bool a b
  | NInf, _ | _, PInf => true
  | PInf, _ | Fin _, NInf => false
  end.

Definition notna (x : number) : bool :=
  match x with
  | NaN => false
  | _ => true
  end.

(** Python's [max(a, b)] and [min(a, b)]: the first argument is kept
    unless the second is strictly greater (smaller). *)
Definition py_max (a b : number) : number := if nlt a b then b else a.
Definition py_min (a b : number) : number := if nlt b a then b else a.

(** Python's [round(x, ndigits)]: to the nearest multiple of
    [10^-ndigits], a tie going to the even one. *)
Definition round_half_even (q : Q) : Z :=
  let f := Qfloor q in
  match ((q - inject_Z f) ?= (1 # 2))%Q with
  | Lt => f
  | Gt => (f + 1)%Z
  | Eq => if Z.even f then f else (f + 1)%Z
  end.

Definition pow10 (n : nat) : positive := Nat.iter n (Pos.mul 10) 1%positive.

Definition round_ndigits (ndigits : nat) (q : Q) : Q :=
  let p := pow10 ndigits in
  Qmake (round_half_even (q * inject_Z (Zpos p))) p.

Definition py_round (x : number) (ndigits : nat) : number :=
  match x with
  | Fin q => Fin (round_ndigits ndigits q)
  | _ => x
  end.

Definition nsum (xs : list number) : number := fold_left nadd xs (Fin 0).

(** Equality of numbers as values: rationals up to [==]. *)
Definition neq (x y : number) : Prop :=
  match x, y with
  | Fin a, Fin b => a == b
  | PInf, PInf | NInf, NInf | NaN, NaN => True
  | _, _ => False
  end.


Infix "=n=" := neq (at level 70).

(* ================================================================== *)
(** * Dynamic values and exceptions *)
(* ================================================================== *)

(** The values a record of the pipeline can hold: what [json] can carry,
    with [int] and [float] both read as [number]. A dict is the list of
    its items in insertion order; a key is looked up at its first
    binding. *)
#[local] Set Warnings "-register-all".
Inductive pyval : Type :=
| PyNone
| PyBool (b : bool)
| PyNum (x : number)
| PyStr (s : string)
| PyList (l : list pyval)
| PyDict (d : list (string * pyval)).

Inductive exn : Type :=
| KeyError (key : string)
| TypeError
| ValueError
| AttributeError
| IndexError
| ZeroDivisionError.

Inductive res (A : Type) : Type :=
| Ok (a : A)
| Raise (e : exn).
Arguments Ok {A} a.
Arguments Raise {A} e.

Definition bind {A B : Type} (m : res A) (k : A -> res B) : res B :=
  match m with
  | Ok a => k a
  | Raise e => Raise e
  end.

Notation "x <- m ;; k" := (bind m (fun x => k))
  (at level 61, m at next level, right associativity).

Fixpoint lookup (key : string) (d : list (string * pyval)) : option pyval :=
  match d with
  | [] => None
  | (k, v) :: d' => if String.eqb k key then Some v else lookup key d'
  end.

(** [v[key]] with a string key: only a dict can be subscripted by a
    string; a missing key is a [KeyError]. *)
Definition getitem (v : pyval) (key : string) : res pyval :=
  match v with
  | PyDict d =>
      match lookup key d with
      | Some x => Ok x
      | None => Raise (KeyError key)
      end
  | _ => Raise TypeError
  end.

(** The attribute lookup of [v.get]: only a dict has the method. *)
Definition get_method (v : pyval) : res (list (string * pyval)) :=
  match v with
  | PyDict d => Ok d
  | _ => Raise AttributeError
  end.

(** [d.get(key, default)] once the method is bound. *)
Definition get_or (d : list (string * pyval)) (key : string)
    (default : pyval) : pyval :=
  match lookup key d with
  | Some x => x
  | None => default
  end.

(** The operand of an arithmetic operator or of a comparison whose
    other operand is a number: a number, or a bool (an [int] in Python);
    anything else is a [TypeError]. *)
Definition as_num (v : pyval) : res number :=
  match v with
  | PyNum x => Ok x
  | PyBool b => Ok (Fin (if b then 1 else 0))
  | _ => Raise TypeError
  end.

(** Truth value of an object in a condition. *)
Definition truthy (v : pyval) : bool :=
  match v with
  | PyNone => false
  | PyBool b => b
  | PyNum x =>
      match x with
      | Fin q => negb (Qeq_bool q 0)
      | _ => true
      end
  | PyStr s => negb (String.eqb s "")
  | PyList l => negb (Nat.eqb (List.length l) 0)
  | PyDict d => negb (Nat.eqb (List.length d) 0)
  end.

Definition py_len (v : pyval) : res nat :=
  match v with
  | PyStr s => Ok (String.length s)
  | PyList l => Ok (List.length l)
  | PyDict d => Ok (List.length d)
  | _ => Raise TypeError
  end.

Fixpoint chars (s : string) : list pyval :=
  match s with
  | EmptyString => []
  | String c s' => PyStr (String c EmptyString) :: chars s'
  end.

(** The items a [for] loop runs over: the elements of a list, the keys
    of a dict, the characters of a string. *)
Definition py_iter (v : pyval) : res (list pyval) :=
  match v with
  | PyList l => Ok l
  | PyDict d => Ok (map (fun kv => PyStr (fst kv)) d)
  | PyStr s => Ok (chars s)
  | _ => Raise TypeError
  end.

(** [v == 'text']. *)
Definition eq_str (v : pyval) (s : string) : bool :=
  match v with
  | PyStr t => String.eqb t s
  | _ => false
  end.

(** [a / b] on Python floats: a zero divisor raises. *)
Definition py_truediv (a b : number) : res number :=
  match b with
  | Fin q => if Qeq_bool q 0 then Raise ZeroDivisionError else Ok (ndiv a b)
  | _ => Ok (ndiv a b)
  end.

(** [series.iloc[-1]]. *)
Definition iloc_last {A : Type} (xs : list A) : res A :=
  match rev xs with
  | x :: _ => Ok x
  | [] => Raise IndexError
  end.

(** [series.iloc[0]]. *)
Definition iloc_first {A : Type} (xs : list A) : res A :=
  match xs with
  | x :: _ => Ok x
  | [] => Raise IndexError
  end.

(** The last [n] items: [xs[-n:]] for [n > 0]. *)
Definition lastn {A : Type} (n : nat) (xs : list A) : list A :=
  skipn (List.length xs - n) xs.

(* ================================================================== *)
(** * pandas operations used by the analyser *)
(* ================================================================== *)

Fixpoint zip_with {A B C : Type} (f : A -> B -> C) (xs : list A)
    (ys : list B) : list C :=
  match xs, ys with
  | x :: xs', y :: ys' => f x y :: zip_with f xs' ys'
  | _, _ => []
  end.

(** [series.ewm(span=span, adjust=False).mean()]:
    [y0 = x0], [y_t = (1 - alpha) y_(t-1) + alpha x_t],
    [alpha = 2 / (span + 1)]. *)
Fixpoint ewm_from (alpha prev : Q) (xs : list Q) : list Q :=
  match xs with
  | [] => []
  | x :: xs' =>
      let y := (1 - alpha) * prev + alpha * x in
      y :: ewm_from alpha y xs'
  end.

Definition ewm_mean (span : nat) (xs : list Q) : list Q :=
  match xs with
  | [] => []
  | x :: xs' => x :: ewm_from (2 / (inject_Z (Z.of_nat span) + 1)) x xs'
  end.

(** [series.diff()]: the first entry has no predecessor and is NaN. *)
Fixpoint diff_from (prev : Q) (xs : list Q) : list number :=
  match xs with
  | [] => []
  | x :: xs' => Fin (x - prev) :: diff_from x xs'
  end.

Definition diff (xs : list Q) : list number :=
  match xs with
  | [] => []
  | x :: xs' => NaN :: diff_from x xs'
  end.

(** [series.shift(1)]. *)
Definition shift1 (xs : list Q) : list number :=
  match xs with
  | [] => []
  | _ :: _ => NaN :: map Fin (removelast xs)
  end.

(** [series.where(cond, 0)]: entries where [cond] is false become 0. *)
Definition where_or_zero (cond : number -> bool) (xs : list number)
    : list number :=
  map (fun d => if cond d then d else Fin 0) xs.

(** [series.rolling(window=w).mean()]: entry [i] is the mean of the [w]
    entries ending at [i], and NaN while fewer than [w] are there. *)
Definition window_mean (w : nat) (upto : list number) : number :=
  if (List.length upto <? w)%nat then NaN
  else ndiv (nsum (lastn w upto)) (Fin (inject_Z (Z.of_nat w))).

Definition rolling_mean (w : nat) (xs : list number) : list number :=
  map (fun i => window_mean w (firstn (S i) xs)) (seq 0 (List.length xs)).

(** One row of [pd.concat([a, b, c], axis=1).max(axis=1)]: the greatest
    entry that is not NaN. *)
Definition nanmax (a b : number) : number :=
  match a, b with
  | NaN, _ => b
  | _, NaN => a
  | _, _ => if nlt a b then b else a
  end.

(** A row of the frame once the four price columns went through
    [astype(float)]. *)
Record bar : Type := mk_bar {
  bar_close : Q;
  bar_high : Q;
  bar_low : Q;
  bar_open : Q
}.

(** A cell of a price column: [df[col].astype(float)] needs a number
    there. Only finite cells are modelled: a row that lacks the column in
    a frame that has it, or holds None or NaN, would give pandas a
    missing value, whose treatment by [ewm] and [rolling] is outside
    this model, so such a cell is rejected like any other non-number
    (text that spells a number included). *)
Definition cell (row : pyval) (col : string) : res Q :=
  v <- getitem row col ;;
  x <- as_num v ;;
  match x with
  | Fin q => Ok q
  | _ => Raise ValueError
  end.

Definition to_bar (row : pyval) : res bar :=
  c <- cell row "close" ;;
  h <- cell row "high" ;;
  l <- cell row "low" ;;
  o <- cell row "open" ;;
  Ok (mk_bar c h l o).

Fixpoint to_bars (rows : list pyval) : res (list bar) :=
  match rows with
  | [] => Ok []
  | r :: rows' =>
      b <- to_bar r ;;
      bs <- to_bars rows' ;;
      Ok (b :: bs)
  end.

(** [df = pd.DataFrame(ohlc_data)] followed by
    [df[col] = df[col].astype(float)] for the four price columns, for
    the row-oriented input the collector emits: a list of dicts. Any
    other shape (a string, a column-oriented dict) is taken to be
    refused by the constructor. *)
Definition DataFrame (ohlc_data : pyval) : res (list bar) :=
  match ohlc_data with
  | PyList rows => to_bars rows
  | _ => Raise ValueError
  end.

(* ================================================================== *)
(** * [TechnicalAnalyzer] (src/technical_analyzer.py) *)
(* ================================================================== *)

Module TechnicalAnalyzer.

(** The entries of an EMA of finite prices are finite, so the
    [pd.notna] tests the source makes on them ([calculate_macd], and the
    fallback to [current_price] in [analyze_coin]) always pass and are
    not written out. *)
Definition calculate_ema (prices : list Q) (period : nat) : list Q :=
  ewm_mean period prices.

Definition calculate_rsi (prices : list Q) (period : nat) : res number :=
  if (List.length prices <? period + 1)%nat then Ok (Fin 50)
  else
    let delta := diff prices in
    let gain :=
      rolling_mean period (where_or_zero (fun d => nlt (Fin 0) d) delta) in
    let loss :=
      rolling_mean period
        (map nneg (where_or_zero (fun d => nlt d (Fin 0)) delta)) in
    let rs := zip_with ndiv gain loss in
    let rsi :=
      map (fun r => nsub (Fin 100) (ndiv (Fin 100) (nadd (Fin 1) r))) rs in
    last_rsi <- iloc_last rsi ;;
    Ok (if notna last_rsi then last_rsi else Fin 50).

Definition calculate_macd (prices : list Q) : res pyval :=
  if (List.length prices <? 26)%nat then
    Ok (PyDict [("macd", PyNum (Fin 0)); ("signal", PyNum (Fin 0));
                ("histogram", PyNum (Fin 0)); ("bullish", PyBool false)])
  else
    let ema_12 := calculate_ema prices 12 in
    let ema_26 := calculate_ema prices 26 in
    let macd_line := zip_with Qminus ema_12 ema_26 in
    let signal_line := ewm_mean 9 macd_line in
    let histogram := zip_with Qminus macd_line signal_line in
    m <- iloc_last macd_line ;;
    s <- iloc_last signal_line ;;
    h <- iloc_last histogram ;;
    Ok (PyDict [("macd", PyNum (Fin m)); ("signal", PyNum (Fin s));
                ("histogram", PyNum (Fin h)); ("bullish", PyBool (Qltb 0 h))]).

(** The true range of a row: [max] over [high - low],
    [abs(high - close.shift(1))] and [abs(low - close.shift(1))]. *)
Definition true_range (b : bar) (prev_close : number) : number :=
  nanmax (Fin (bar_high b - bar_low b))
    (nanmax (nabs (nsub (Fin (bar_high b)) prev_close))
            (nabs (nsub (Fin (bar_low b)) prev_close))).

Definition calculate_atr (df : list bar) (period : nat) : res number :=
  if (List.length df <? period + 1)%nat then Ok (Fin 0)
  else
    let close := shift1 (map bar_close df) in
    let tr := zip_with true_range df close in
    let atr := rolling_mean period tr in
    last_atr <- iloc_last atr ;;
    Ok (if notna last_atr then last_atr else Fin 0).

Definition trend_dict (label : string) (strength : number) : pyval :=
  PyDict [("trend", PyStr label); ("strength", PyNum strength)].

Definition detect_trend (prices : list Q) : res pyval :=
  if (List.length prices <? 10)%nat then Ok (trend_dict "neutral" (Fin 0))
  else
    let recent := lastn 10 prices in
    last <- iloc_last recent ;;
    first <- iloc_first recent ;;
    let change_pct :=
      nmul (ndiv (Fin (last - first)) (Fin first)) (Fin 100) in
    if nlt (Fin 3) change_pct then
      Ok (trend_dict "bullish"
            (py_min (ndiv (nabs change_pct) (Fin 5)) (Fin 5)))
    else if nlt change_pct (Fin (-3)) then
      Ok (trend_dict "bearish"
            (py_min (ndiv (nabs change_pct) (Fin 5)) (Fin 5)))
    else Ok (trend_dict "neutral" (Fin 0)).

(** The body of the [try] block of [analyze_coin]. *)
Definition analyze_coin_try (coin_data : pyval) : res (option pyval) :=
  coin <- get_method coin_data ;;
  let ohlc_data := get_or coin "ohlc" (PyList []) in
  if negb (truthy ohlc_data) then Ok None
  else
    n <- py_len ohlc_data ;;
    if (n <? 20)%nat then Ok None
    else
      df <- DataFrame ohlc_data ;;
      let prices := map bar_close df in
      let ema_7 := calculate_ema prices 7 in
      let ema_25 := calculate_ema prices 25 in
      rsi <- calculate_rsi prices 14 ;;
      macd <- calculate_macd prices ;;
      atr <- calculate_atr df 14 ;;
      trend <- detect_trend prices ;;
      current_price <- getitem coin_data "current_price" ;;
      current_ema_7 <- iloc_last ema_7 ;;
      current_ema_25 <- iloc_last ema_25 ;;
      let volume_24h := get_or coin "total_volume" (PyNum (Fin 0)) in
      let ema_cross := Qltb current_ema_25 current_ema_7 in
      price <- as_num current_price ;;
      let ema_aligned :=
        nlt (Fin current_ema_7) price && Qltb current_ema_25 current_ema_7 in
      let rsi_bullish := nle (Fin 35) rsi && nle rsi (Fin 70) in
      macd_bullish <- getitem macd "bullish" ;;
      macd_histogram <- getitem macd "histogram" ;;
      volume <- as_num volume_24h ;;
      let volume_surge := nlt (Fin 10000000) volume in
      trend_label <- getitem trend "trend" ;;
      trend_strength <- getitem trend "strength" ;;
      let signals :=
        PyDict [("ema_cross", PyBool ema_cross);
                ("ema_aligned", PyBool ema_aligned);
                ("rsi_bullish", PyBool rsi_bullish);
                ("rsi_value", PyNum rsi);
                ("macd_signal",
                 PyStr (if truthy macd_bullish then "buy" else "sell"));
                ("macd_histogram", macd_histogram);
                ("volume_surge", PyBool volume_surge);
                ("trend", trend_label);
                ("trend_strength", trend_strength)] in
      symbol <- getitem coin_data "symbol" ;;
      name <- getitem coin_data "name" ;;
      market_cap <- getitem coin_data "market_cap" ;;
      atr_percent <-
        (if nlt (Fin 0) price then
           r <- py_truediv atr price ;; Ok (nmul r (Fin 100))
         else Ok (Fin 0)) ;;
      Ok (Some (PyDict
        [("symbol", symbol);
         ("name", name);
         ("price", current_price);
         ("market_cap", market_cap);
         ("volume_24h", volume_24h);
         ("indicators",
          PyDict [("ema_7", PyNum (Fin current_ema_7));
                  ("ema_25", PyNum (Fin current_ema_25));
                  ("rsi", PyNum rsi);
                  ("macd", macd);
                  ("atr", PyNum atr);
                  ("atr_percent", PyNum atr_percent)]);
         ("signals", signals);
         ("price_change_24h", get_or coin "price_change_24h" (PyNum (Fin 0)));
         ("price_change_7d", get_or coin "price_change_7d" (PyNum (Fin 0)))])).

(** [analyze_coin]: any exception of the body is caught and gives
    [None]; the handler reads [coin_data.get('symbol', 'UNKNOWN')] for
    its log line, which itself raises when [coin_data] is not a dict. *)
Definition analyze_coin (coin_data : pyval) : res (option pyval) :=
  match analyze_coin_try coin_data with
  | Ok r => Ok r
  | Raise _ => _ <- get_method coin_data ;; Ok None
  end.

(** The loop of [analyze_all]: the records of the coins whose analysis
    is truthy, in the order of the input. *)
Fixpoint analyze_each (coins : list pyval) (analyzed_coins : list pyval)
    : res (list pyval) :=
  match coins with
  | [] => Ok analyzed_coins
  | coin_data :: rest =>
      analysis <- analyze_coin coin_data ;;
      match analysis with
      | Some a =>
          if truthy a then analyze_each rest (analyzed_coins ++ [a])
          else analyze_each rest analyzed_coins
      | None => analyze_each rest analyzed_coins
      end
  end.

Definition analyze_all (now : string) (crypto_data : pyval) : res pyval :=
  coins <- getitem crypto_data "coins" ;;
  items <- py_iter coins ;;
  analyzed_coins <- analyze_each items [] ;;
  d <- get_method crypto_data ;;
  Ok (PyDict [("timestamp", PyStr now);
              ("market_context", get_or d "market_context" (PyDict []));
              ("analyzed_coins", PyList analyzed_coins)]).

End TechnicalAnalyzer.

(* ================================================================== *)
(** * [ScoringSelector] (src/scoring_selector.py) *)
(* ================================================================== *)

(** The dataclass [CryptoSignal]. The fields copied from the analysis
    record keep whatever value the record held; the scores and levels
    are numbers by construction. *)
Record CryptoSignal : Type := mk_signal {
  symbol : pyval;
  name : pyval;
  pair : string;
  price : pyval;
  market_cap : pyval;
  volume_24h : pyval;
  technical_score : number;
  momentum_score : number;
  volume_score : number;
  risk_score : number;
  final_score : number;
  signals : pyval;
  entry_zone : list number;
  stop_loss : number;
  target_1 : number;
  target_2 : number;
  btc_correlation : number;
  timestamp : string
}.

(** The dict returned by [calculate_score]. *)
Record scores : Type := mk_scores {
  s_momentum_score : number;
  s_volume_score : number;
  s_technical_score : number;
  s_risk_score : number;
  s_final_score : number
}.

(** The dict returned by [calculate_levels]. *)
Record levels : Type := mk_levels {
  l_entry_zone : list number;
  l_stop_loss : number;
  l_target_1 : number;
  l_target_2 : number;
  l_risk_reward_t1 : number
}.

(** The dict [result] that [select_top_opportunities] writes to its
    output file. *)
Record run_result : Type := mk_result {
  r_timestamp : string;
  r_market_context : pyval;
  r_total_analyzed : nat;
  r_total_qualified : nat;
  r_top_opportunities : list CryptoSignal
}.

Module ScoringSelector.

Definition MIN_SCORE : Q := 7.5.
Definition MIN_MARKET_CAP : Q := 100000000.

Definition market_cap_multiplier (market_cap : pyval) : res number :=
  cap <- as_num market_cap ;;
  if nlt (Fin 10000000000) cap then Ok (Fin 1.1)
  else if nlt (Fin 1000000000) cap then Ok (Fin 1.0)
  else if nlt (Fin 100000000) cap then Ok (Fin 0.95)
  else Ok (Fin 0.0).

Definition calculate_score (analysis : pyval) : res scores :=
  signals <- getitem analysis "signals" ;;
  indicators <- getitem analysis "indicators" ;;
  (* Momentum (0-10) *)
  let momentum := 2 in
  ema_aligned <- getitem signals "ema_aligned" ;;
  let momentum := if truthy ema_aligned then momentum + 4 else momentum in
  ema_cross <- getitem signals "ema_cross" ;;
  let momentum := if truthy ema_cross then momentum + 2 else momentum in
  rsi_bullish <- getitem signals "rsi_bullish" ;;
  let momentum := if truthy rsi_bullish then momentum + 2 else momentum in
  let momentum_score := py_min (Fin momentum) (Fin 10) in
  (* Volume (0-10) *)
  let volume_score := 4 in
  volume_surge <- getitem signals "volume_surge" ;;
  let volume_score :=
    if truthy volume_surge then volume_score + 3 else volume_score in
  volume_24h <- getitem analysis "volume_24h" ;;
  volume <- as_num volume_24h ;;
  let volume_score :=
    if nlt (Fin 50000000) volume then volume_score + 3 else volume_score in
  let volume_score := py_min (Fin volume_score) (Fin 10) in
  (* Technical (0-10) *)
  let technical := 3 in
  macd_signal <- getitem signals "macd_signal" ;;
  let technical := if eq_str macd_signal "buy" then technical + 3 else technical in
  trend <- getitem signals "trend" ;;
  let technical := if eq_str trend "bullish" then technical + 2 else technical in
  rsi_value <- getitem signals "rsi_value" ;;
  rsi <- as_num rsi_value ;;
  let technical :=
    if nle (Fin 40) rsi && nle rsi (Fin 60) then technical + 2
    else technical in
  let technical_score := py_min (Fin technical) (Fin 10) in
  (* Risk (0-10) *)
  ind <- get_method indicators ;;
  atr_pct <- as_num (get_or ind "atr_percent" (PyNum (Fin 5))) ;;
  let risk_score :=
    py_max (Fin 0) (nsub (Fin 10) (nmul atr_pct (Fin 1.2))) in
  let final :=
    nadd (nadd (nadd (nmul momentum_score (Fin 0.35))
                     (nmul volume_score (Fin 0.25)))
               (nmul technical_score (Fin 0.25)))
         (nmul risk_score (Fin 0.15)) in
  cap <- getitem analysis "market_cap" ;;
  multiplier <- market_cap_multiplier cap ;;
  let final := nmul final multiplier in
  Ok (mk_scores (py_round momentum_score 2) (py_round volume_score 2)
        (py_round technical_score 2) (py_round risk_score 2)
        (py_round final 2)).

Definition calculate_levels (price atr : pyval) : res levels :=
  p <- as_num price ;;
  let stop_loss := nmul p (Fin 0.975) in
  let target_1 := nmul p (Fin 1.10) in
  let target_2 := nmul p (Fin 1.20) in
  let entry_low := nmul p (Fin 0.985) in
  let entry_high := nmul p (Fin 1.015) in
  let risk := nsub p stop_loss in
  risk_reward_t1 <-
    (if nlt (Fin 0) risk then
       r <- py_truediv (nsub target_1 p) risk ;; Ok (py_round r 2)
     else Ok (Fin 0)) ;;
  Ok (mk_levels [py_round entry_low 6; py_round entry_high 6]
        (py_round stop_loss 6) (py_round target_1 6) (py_round target_2 6)
        risk_reward_t1).

(** [scored_coins.sort(key=lambda x: x.final_score, reverse=True)]:
    Python's sort is stable, also with [reverse=True]; it is modelled by
    a stable insertion sort. An item goes behind every item with a
    strictly greater key and in front of the first one without. *)
Fixpoint insert_desc (x : CryptoSignal) (l : list CryptoSignal)
    : list CryptoSignal :=
  match l with
  | [] => [x]
  | y :: l' =>
      if nlt (final_score x) (final_score y) then y :: insert_desc x l'
      else x :: l
  end.

Definition sort_desc (l : list CryptoSignal) : list CryptoSignal :=
  fold_right insert_desc [] l.

Section Selection.

(** [str(v)] for a value that is not text, as an f-string renders it. *)
Variable str_other : pyval -> string.
(** The successive readings of [datetime.now().isoformat()]. *)
Variable clock : nat -> string.

Definition py_str (v : pyval) : string :=
  match v with
  | PyStr s => s
  | _ => str_other v
  end.

(** One turn of the loop of [select_top_opportunities]: [None] when the
    record is skipped by a [continue], the signal appended to
    [scored_coins] otherwise. [n] is the length of [scored_coins], which
    is also the number of clock readings taken so far. *)
Definition build_signal (analysis : pyval) (n : nat)
    : res (option CryptoSignal) :=
  cap <- getitem analysis "market_cap" ;;
  c <- as_num cap ;;
  if nlt c (Fin MIN_MARKET_CAP) then Ok None
  else
    sc <- calculate_score analysis ;;
    if nlt (s_final_score sc) (Fin MIN_SCORE) then Ok None
    else
      indicators <- getitem analysis "indicators" ;;
      ind <- get_method indicators ;;
      price0 <- getitem analysis "price" ;;
      p <- as_num price0 ;;
      let atr := get_or ind "atr" (PyNum (nmul p (Fin 0.02))) in
      price1 <- getitem analysis "price" ;;
      lv <- calculate_levels price1 atr ;;
      symbol <- getitem analysis "symbol" ;;
      name <- getitem analysis "name" ;;
      symbol' <- getitem analysis "symbol" ;;
      price <- getitem analysis "price" ;;
      market_cap <- getitem analysis "market_cap" ;;
      volume_24h <- getitem analysis "volume_24h" ;;
      signals <- getitem analysis "signals" ;;
      Ok (Some
        (mk_signal symbol name (py_str symbol' ++ "/USDT")%string
           price market_cap volume_24h
           (s_technical_score sc) (s_momentum_score sc)
           (s_volume_score sc) (s_risk_score sc) (s_final_score sc)
           signals
           (l_entry_zone lv) (l_stop_loss lv) (l_target_1 lv)
           (l_target_2 lv)
           (Fin 0.75)
           (clock n))).

Fixpoint score_each (coins : list pyval) (scored_coins : list CryptoSignal)
    : res (list CryptoSignal) :=
  match coins with
  | [] => Ok scored_coins
  | analysis :: rest =>
      r <- build_signal analysis (List.length scored_coins) ;;
      match r with
      | Some signal => score_each rest (scored_coins ++ [signal])
      | None => score_each rest scored_coins
      end
  end.

(** [scored_coins] when the loop is over. *)
Definition scored (technical_data : pyval) : res (list CryptoSignal) :=
  coins <- getitem technical_data "analyzed_coins" ;;
  items <- py_iter coins ;;
  score_each items [].

(** The dict [result] written to the output file. *)
Definition selection_result (technical_data : pyval) : res run_result :=
  scored_coins <- scored technical_data ;;
  let scored_coins' := sort_desc scored_coins in
  let top_signals := firstn 10 scored_coins' in
  d <- get_method technical_data ;;
  coins <- getitem technical_data "analyzed_coins" ;;
  total <- py_len coins ;;
  Ok (mk_result (clock (List.length scored_coins))
        (get_or d "market_context" (PyDict []))
        total (List.length scored_coins') top_signals).

(** The value returned: [top_signals]. *)
Definition select_top_opportunities (technical_data : pyval)
    : res (list CryptoSignal) :=
  r <- selection_result technical_data ;;
  Ok (r_top_opportunities r).

End Selection.

End ScoringSelector.

Import TechnicalAnalyzer ScoringSelector.

(* ================================================================== *)
(** * Quantities the statements speak of *)
(* ================================================================== *)

(** ** Inside [calculate_rsi] *)


Definition losses (prices : list Q) : list number :=
  map nneg (where_or_zero (fun d => nlt d (Fin 0)) (diff prices)).


Definition avg_loss (prices : list Q) (period : nat) : number :=
  window_mean period (losses prices).


Definition nonneg (x : number) : Prop :=
  match x with
  | Fin q => 0 <= q
  | _ => False
  end.

(** ** Inside [calculate_score] *)

(** The four sub-scores before rounding, as functions of the conditions
    [calculate_score] tests, and the weighted sum of its line 96. *)
Definition momentum_of (ema_aligned ema_cross rsi_bullish : bool) : number :=
  let momentum := 2 in
  let momentum := if ema_aligned then momentum + 4 else momentum in
  let momentum := if ema_cross then momentum + 2 else momentum in
  let momentum := if rsi_bullish then momentum + 2 else momentum in
  py_min (Fin momentum) (Fin 10).

Definition volume_of (volume_surge high_volume : bool) : number :=
  let volume_score := 4 in
  let volume_score := if volume_surge then volume_score + 3 else volume_score in
  let volume_score := if high_volume then volume_score + 3 else volume_score in
  py_min (Fin volume_score) (Fin 10).

Definition technical_of (macd_buy trend_bullish rsi_mid : bool) : number :=
  let technical := 3 in
  let technical := if macd_buy then technical + 3 else technical in
  let technical := if trend_bullish then technical + 2 else technical in
  let technical := if rsi_mid then technical + 2 else technical in
  py_min (Fin technical) (Fin 10).

Definition risk_of (atr_pct : number) : number :=
  py_max (Fin 0) (nsub (Fin 10) (nmul atr_pct (Fin 1.2))).

Definition blend (momentum volume technical risk : number) : number :=
  nadd (nadd (nadd (nmul momentum (Fin 0.35)) (nmul volume (Fin 0.25)))
             (nmul technical (Fin 0.25)))
       (nmul risk (Fin 0.15)).

(** [analysis['indicators'].get('atr_percent', 5)], read as a number. *)
Definition atr_pct_of (analysis : pyval) : res number :=
  indicators <- getitem analysis "indicators" ;;
  ind <- get_method indicators ;;
  as_num (get_or ind "atr_percent" (PyNum (Fin 5))).


(** ** Records of the pipeline *)

(** The dict literal [analyze_coin] returns, by its entries. *)
Definition analysis_record
    (symbol name current_price market_cap volume_24h : pyval)
    (ema_7 ema_25 : Q) (rsi : number) (macd : pyval) (atr atr_percent : number)
    (ema_cross ema_aligned rsi_bullish : bool) (macd_signal : string)
    (macd_histogram : pyval) (volume_surge : bool)
    (trend trend_strength change_24h change_7d : pyval) : pyval :=
  PyDict
    [("symbol", symbol);
     ("name", name);
     ("price", current_price);
     ("market_cap", market_cap);
     ("volume_24h", volume_24h);
     ("indicators",
      PyDict [("ema_7", PyNum (Fin ema_7));
              ("ema_25", PyNum (Fin ema_25));
              ("rsi", PyNum rsi);
              ("macd", macd);
              ("atr", PyNum atr);
              ("atr_percent", PyNum atr_percent)]);
     ("signals",
      PyDict [("ema_cross", PyBool ema_cross);
              ("ema_aligned", PyBool ema_aligned);
              ("rsi_bullish", PyBool rsi_bullish);
              ("rsi_value", PyNum rsi);
              ("macd_signal", PyStr macd_signal);
              ("macd_histogram", macd_histogram);
              ("volume_surge", PyBool volume_surge);
              ("trend", trend);
              ("trend_strength", trend_strength)]);
     ("price_change_24h", change_24h);
     ("price_change_7d", change_7d)].





(** ** Ranking *)



(** [a] may stand in front of [b] in a list sorted by descending
    score: [a]'s score is not strictly below [b]'s. *)
Definition not_below (a b : CryptoSignal) : Prop :=
  nlt (final_score a) (final_score b) = false.

(** [subseq l1 l2]: [l1] is [l2] with some items left out, order kept. *)
Inductive subseq {A : Type} : list A -> list A -> Prop :=
| subseq_nil : subseq [] []
| subseq_skip x l1 l2 : subseq l1 l2 -> subseq l1 (x :: l2)
| subseq_take x l1 l2 : subseq l1 l2 -> subseq (x :: l1) (x :: l2).

(** [s] is the signal the selection loop builds from the record [a]. *)
Definition built (str_other : pyval -> string) (clock : nat -> string)
    (a : pyval) (s : CryptoSignal) : Prop :=
  exists n, build_signal str_other clock a n = Ok (Some s).

(* ================================================================== *)
(** * Sample data *)
(* ================================================================== *)

(** Fifteen closes, each one above the one before. *)
Definition rising_prices : list Q :=
  [1; 2; 3; 4; 5; 6; 7; 8; 9; 10; 11; 12; 13; 14; 15].

(** Twenty bars whose close rises by one per bar, and a coin built on
    them. *)
Definition sample_row (c : Q) : pyval :=
  PyDict [("timestamp", PyStr "2024-01-01T00:00:00");
          ("open", PyNum (Fin c)); ("high", PyNum (Fin (c + 2)));
          ("low", PyNum (Fin (c - 1))); ("close", PyNum (Fin c))].

Definition sample_rows : list pyval :=
  map (fun n => sample_row (inject_Z (Z.of_nat n))) (seq 100 20).

Definition sample_coin (symbol : string) (market_cap : pyval) : pyval :=
  PyDict [("id", PyStr "sample"); ("symbol", PyStr symbol);
          ("name", PyStr "Sample"); ("current_price", PyNum (Fin 120));
          ("market_cap", market_cap);
          ("total_volume", PyNum (Fin 60000000));
          ("price_change_24h", PyNum (Fin 0));
          ("price_change_7d", PyNum (Fin 0));
          ("ohlc", PyList sample_rows)].

(** The record [analyze_coin] builds for that coin. *)
Definition sample_analysis : pyval :=
  Eval vm_compute in
    match analyze_coin (sample_coin "AAA" (PyNum (Fin 20000000000))) with
    | Ok (Some a) => a
    | _ => PyNone
    end.

Definition bad_record : pyval := PyDict [("symbol", PyStr "BAD")].
Definition no_text (v : pyval) : string := "".
Definition fixed_clock (n : nat) : string := "2024-01-01T09:30:00".

(** Hand-built analysis records that differ in market cap and ATR
    percent, and the selection over a batch of five of them. *)
Definition sample_record (symbol : string) (market_cap atr_percent : Q)
    : pyval :=
  analysis_record (PyStr symbol) (PyStr symbol) (PyNum (Fin 120))
    (PyNum (Fin market_cap)) (PyNum (Fin 60000000)) 118 115 (Fin 55)
    (PyDict []) (Fin 3) (Fin atr_percent) true true true "buy"
    (PyNum (Fin 1)) true (PyStr "bullish") (PyNum (Fin 2))
    (PyNum (Fin 0)) (PyNum (Fin 0)).

Definition sample_batch : pyval :=
  PyDict [("analyzed_coins",
           PyList [sample_record "LOW" 20000000000 8;
                   sample_record "ONE" 20000000000 2;
                   sample_record "TINY" 50000000 2;
                   sample_record "TWO" 20000000000 2;
                   sample_record "TOP" 20000000000 0])].

Definition sample_top : list CryptoSignal :=
  Eval vm_compute in
    match select_top_opportunities no_text fixed_clock sample_batch with
    | Ok top => top
    | Raise _ => []
    end.

(* ================================================================== *)
(** * Further quantities and sample data *)
(* ================================================================== *)

(** ** Sample data: a series with gains and losses *)




(** ** Dicts *)

Definition is_dict (v : pyval) : bool :=
  match v with
  | PyDict _ => true
  | _ => false
  end.

(** ** Provenance of the analysed records *)

Definition analyzed_from (coin_data a : pyval) : Prop :=
  analyze_coin coin_data = Ok (Some a).

(** ** Provenance of a signal *)

(** [s] carries the fields of the record [a], the scores
    [calculate_score] gives for [a] and the levels [calculate_levels]
    gives for [a]'s price. *)
Definition derived_from (a : pyval) (s : CryptoSignal) : Prop :=
  exists sc lv atr,
    calculate_score a = Ok sc /\
    calculate_levels (price s) atr = Ok lv /\
    getitem a "symbol" = Ok (symbol s) /\
    getitem a "name" = Ok (name s) /\
    getitem a "price" = Ok (price s) /\
    getitem a "market_cap" = Ok (market_cap s) /\
    getitem a "volume_24h" = Ok (volume_24h s) /\
    getitem a "signals" = Ok (signals s) /\
    technical_score s = s_technical_score sc /\
    momentum_score s = s_momentum_score sc /\
    volume_score s = s_volume_score sc /\
    risk_score s = s_risk_score sc /\
    final_score s = s_final_score sc /\
    entry_zone s = l_entry_zone lv /\
    stop_loss s = l_stop_loss lv /\
    target_1 s = l_target_1 lv /\
    target_2 s = l_target_2 lv.

(* ================================================================== *)
(** * [TelegramNotifier] (src/telegram_notifier.py) and [run_crypto_analysis] (src/app.py) *)
(* ================================================================== *)

(** [CryptoSignal.to_dict]: [asdict(self)]. *)
Definition to_dict (s : CryptoSignal) : pyval :=
  PyDict [("symbol", symbol s);
          ("name", name s);
          ("pair", PyStr (pair s));
          ("price", price s);
          ("market_cap", market_cap s);
          ("volume_24h", volume_24h s);
          ("technical_score", PyNum (technical_score s));
          ("momentum_score", PyNum (momentum_score s));
          ("volume_score", PyNum (volume_score s));
          ("risk_score", PyNum (risk_score s));
          ("final_score", PyNum (final_score s));
          ("signals", signals s);
          ("entry_zone", PyList (map PyNum (entry_zone s)));
          ("stop_loss", PyNum (stop_loss s));
          ("target_1", PyNum (target_1 s));
          ("target_2", PyNum (target_2 s));
          ("btc_correlation", PyNum (btc_correlation s));
          ("timestamp", PyStr (timestamp s))].

Definition py_int (n : nat) : pyval := PyNum (Fin (inject_Z (Z.of_nat n))).

(** The dict [result] of [select_top_opportunities] as [json.load] gives
    it back from the file it was dumped to: the values of [pyval] are
    the ones [json] carries, NaN and the infinities included. *)
Definition result_dict (r : run_result) : pyval :=
  PyDict [("timestamp", PyStr (r_timestamp r));
          ("market_context", r_market_context r);
          ("total_analyzed", py_int (r_total_analyzed r));
          ("total_qualified", py_int (r_total_qualified r));
          ("top_opportunities",
           PyList (map to_dict (r_top_opportunities r)))].

(** A call that sends messages: the texts handed to [send_message], in
    order, and how the call ended. The texts sent before an exception
    stay sent. *)
Definition sent (A : Type) : Type := (list string * res A)%type.

Definition done {A : Type} (a : A) : sent A := ([], Ok a).

Definition lift {A : Type} (r : res A) : sent A := ([], r).

Definition and_then {A B : Type} (m : sent A) (k : A -> sent B) : sent B :=
  match m with
  | (w, Ok a) => let (w', r) := k a in (w ++ w', r)
  | (w, Raise e) => (w, Raise e)
  end.

Notation "x <~ m ;; k" := (and_then m (fun x => k))
  (at level 61, m at next level, right associativity).

Definition nl : string := String (ascii_of_nat 10) EmptyString.

(** [sep.join(items)]. *)
Fixpoint join (sep : string) (items : list string) : string :=
  match items with
  | [] => ""
  | [x] => x
  | x :: rest => (x ++ sep ++ join sep rest)%string
  end.

(** The status dict [last_run] of src/app.py; [lr_duration] is its
    entry [duration_seconds], which only a successful run sets. *)
Record last_run : Type := mk_last_run {
  lr_time : string;
  lr_status : string;
  lr_signals : nat;
  lr_duration : option number
}.

Module TelegramNotifier.

Section Notifier.

(** [format(x, spec)] for a number [x] and a format spec ending in [f]. *)
Variable fmt : string -> number -> string.
(** [str(v)] for a value that is not text, and [str(n)] for an int. *)
Variable str_other : pyval -> string.
Variable str_int : nat -> string.
(** [datetime.now().strftime('%d %b %Y, %H:%M')]. *)
Variable strftime_now : string.
(** Whether Telegram took a message: credentials set and the request
    answered without an error. *)
Variable delivered : string -> bool.
(** The exception of [d[:3]] on a dict [d]: a [TypeError] (a slice
    cannot be hashed) up to Python 3.11, a [KeyError] from 3.12. *)
Variable dict_slice_error : exn.

(** [send_message]: every error of the request is caught, the outcome
    is the bool returned. *)
Definition send_message (text : string) : sent bool :=
  ([text], Ok (delivered text)).

(** [f"{v:spec}"] with a spec ending in [f]: numbers and bools are
    rendered, text is a [ValueError], anything else a [TypeError]. *)
Definition py_format (spec : string) (v : pyval) : res string :=
  match v with
  | PyNum x => Ok (fmt spec x)
  | PyBool b => Ok (fmt spec (Fin (if b then 1 else 0)))
  | PyStr _ => Raise ValueError
  | _ => Raise TypeError
  end.

Definition format_mcap (mcap : pyval) : res string :=
  m <- as_num mcap ;;
  if nle (Fin 1000000000) m then
    Ok ("$" ++ fmt ".1f" (ndiv m (Fin 1000000000)) ++ "B")%string
  else
    Ok ("$" ++ fmt ".0f" (ndiv m (Fin 1000000)) ++ "M")%string.

(** [["🥇", "🥈", "🥉"][rank-1] if rank <= 3 else f"#{rank}"]; at rank 0 the
    index -1 is the last medal. *)
Definition medal (rank : nat) : string :=
  match rank with
  | 0%nat => "🥉"
  | 1%nat => "🥇"
  | 2%nat => "🥈"
  | 3%nat => "🥉"
  | _ => ("#" ++ str_int rank)%string
  end.

(** [signal['signals'].get(key, default)]. *)
Definition signals_get (signal : pyval) (key : string) (default : pyval)
    : res pyval :=
  sg <- getitem signal "signals" ;;
  d <- get_method sg ;;
  Ok (get_or d key default).

Definition format_signal_telegram (signal : pyval) (rank : nat)
    : res string :=
  let medal := medal rank in
  entry_zone <- getitem signal "entry_zone" ;;
  items <- py_iter entry_zone ;;
  match items with
  | [entry_low; entry_high] =>
      price <- getitem signal "price" ;;
      stop_loss <- getitem signal "stop_loss" ;;
      target_1 <- getitem signal "target_1" ;;
      target_2 <- getitem signal "target_2" ;;
      p <- as_num price ;;
      sl <- as_num stop_loss ;;
      r <- py_truediv (nsub p sl) p ;;
      let risk_pct := nmul r (Fin 100) in
      t1 <- as_num target_1 ;;
      r1 <- py_truediv (nsub t1 p) p ;;
      let reward_pct_t1 := nmul r1 (Fin 100) in
      t2 <- as_num target_2 ;;
      r2 <- py_truediv (nsub t2 p) p ;;
      let reward_pct_t2 := nmul r2 (Fin 100) in
      (* Format signals *)
      let signals_list := [] in
      ema_aligned <- signals_get signal "ema_aligned" PyNone ;;
      let signals_list :=
        if truthy ema_aligned then signals_list ++ ["EMA✓"]
        else signals_list in
      rsi_bullish <- signals_get signal "rsi_bullish" PyNone ;;
      signals_list <-
        (if truthy rsi_bullish then
           rsi_value <- signals_get signal "rsi_value" (PyNum (Fin 0)) ;;
           rsi <- py_format ".0f" rsi_value ;;
           Ok (signals_list ++ [("RSI" ++ rsi)%string])
         else Ok signals_list) ;;
      macd_signal <- signals_get signal "macd_signal" PyNone ;;
      let signals_list :=
        if eq_str macd_signal "buy" then signals_list ++ ["MACD✓"]
        else signals_list in
      volume_surge <- signals_get signal "volume_surge" PyNone ;;
      let signals_list :=
        if truthy volume_surge then signals_list ++ ["Vol✓"]
        else signals_list in
      let signals_str :=
        match signals_list with
        | [] => "N/A"
        | _ => join " | " (firstn 4 signals_list)
        end in
      symbol <- getitem signal "symbol" ;;
      name <- getitem signal "name" ;;
      final_score <- getitem signal "final_score" ;;
      score <- py_format ".1f" final_score ;;
      price' <- py_format ",.4f" price ;;
      market_cap <- getitem signal "market_cap" ;;
      cap <- format_mcap market_cap ;;
      entry_low' <- py_format ",.4f" entry_low ;;
      entry_high' <- py_format ",.4f" entry_high ;;
      stop_loss' <- py_format ",.4f" stop_loss ;;
      target_1' <- py_format ",.4f" target_1 ;;
      target_2' <- py_format ",.4f" target_2 ;;
      Ok (nl ++ medal ++ " *" ++ py_str str_other symbol ++ "* ("
             ++ py_str str_other name ++ ")" ++ nl
          ++ "━━━━━━━━━━━━━━━━━━━━" ++ nl
          ++ "📊 Score: *" ++ score ++ "/10*" ++ nl
          ++ "💰 Precio: $" ++ price' ++ nl
          ++ "📈 Cap: " ++ cap ++ nl
          ++ nl
          ++ "🎯 Entry: $" ++ entry_low' ++ " - $" ++ entry_high' ++ nl
          ++ "🛑 Stop: $" ++ stop_loss' ++ " (-" ++ fmt ".1f" risk_pct
             ++ "%)" ++ nl
          ++ "💎 T1: $" ++ target_1' ++ " (+" ++ fmt ".1f" reward_pct_t1
             ++ "%)" ++ nl
          ++ "💎 T2: $" ++ target_2' ++ " (+" ++ fmt ".1f" reward_pct_t2
             ++ "%)" ++ nl
          ++ nl
          ++ "✅ Señales: " ++ signals_str ++ nl)%string
  | _ => Raise ValueError
  end.

(** The loop [for i, signal in enumerate(signals[:3], 1)] from the
    index [i] on. *)
Fixpoint send_signals (top : list pyval) (i : nat) : sent unit :=
  match top with
  | [] => done tt
  | signal :: rest =>
      msg <~ lift (format_signal_telegram signal i) ;;
      _ <~ send_message msg ;;
      send_signals rest (S i)
  end.

(** [signals[:3]], as the loop runs over it. *)
Definition first_three (signals : pyval) : res (list pyval) :=
  match signals with
  | PyList l => Ok (firstn 3 l)
  | PyStr s => Ok (firstn 3 (chars s))
  | PyDict _ => Raise dict_slice_error
  | _ => Raise TypeError
  end.

Definition report_header (data : pyval) (market_ctx : pyval) : res string :=
  m <- get_method market_ctx ;;
  btc_dominance <- py_format ".1f" (get_or m "btc_dominance" (PyNum (Fin 0))) ;;
  m' <- get_method market_ctx ;;
  total_market_cap <-
    format_mcap (get_or m' "total_market_cap" (PyNum (Fin 0))) ;;
  d <- get_method data ;;
  let total_qualified := get_or d "total_qualified" (PyNum (Fin 0)) in
  d' <- get_method data ;;
  let total_analyzed := get_or d' "total_analyzed" (PyNum (Fin 0)) in
  Ok (nl ++ "🪙 *CRYPTO SWING TRADING*" ++ nl
      ++ "📅 " ++ strftime_now ++ " CET" ++ nl
      ++ nl
      ++ "━━━━━━━━━━━━━━━━━━━━━━━━━━━━" ++ nl
      ++ "📊 *CONTEXTO DE MERCADO*" ++ nl
      ++ "━━━━━━━━━━━━━━━━━━━━━━━━━━━━" ++ nl
      ++ "🔸 BTC Dominance: " ++ btc_dominance ++ "%" ++ nl
      ++ "💰 Total Market Cap: " ++ total_market_cap ++ nl
      ++ "✅ " ++ py_str str_other total_qualified
         ++ " cryptos calificadas de " ++ py_str str_other total_analyzed
         ++ " analizadas" ++ nl)%string.

Definition opportunities_heading : string :=
  ("━━━━━━━━━━━━━━━━━━━━━━━━━━━━" ++ nl ++ "🏆 *TOP OPORTUNIDADES*" ++ nl ++ "━━━━━━━━━━━━━━━━━━━━━━━━━━━━")%string.

Definition no_opportunities : string :=
  ("⚠️ *No se encontraron oportunidades* que cumplan los criterios de scoring esta semana."
   ++ nl ++ nl
   ++ "El mercado puede estar en fase lateral o sin señales claras.")%string.

Definition send_analysis_report (data : pyval) : sent unit :=
  d <~ lift (get_method data) ;;
  let signals := get_or d "top_opportunities" (PyList []) in
  d' <~ lift (get_method data) ;;
  let market_ctx := get_or d' "market_context" (PyDict []) in
  (* Header *)
  header <~ lift (report_header data market_ctx) ;;
  _ <~ send_message header ;;
  if truthy signals then
    _ <~ send_message opportunities_heading ;;
    top <~ lift (first_three signals) ;;
    _ <~ send_signals top 1 ;;
    n <~ lift (py_len signals) ;;
    if (3 <? n)%nat then
      let footer :=
        (nl ++ "📋 +" ++ str_int (n - 3) ++ " oportunidades más disponibles")%string in
      _ <~ send_message footer ;;
      done tt
    else done tt
  else
    _ <~ send_message no_opportunities ;;
    done tt.

Definition send_high_score_alert (signal : CryptoSignal) : sent unit :=
  if nlt (final_score signal) (Fin 8.5) then done tt
  else
    let price := price signal in
    let target_1 := target_1 signal in
    alert <~ lift (
      p <- as_num price ;;
      r <- py_truediv (nsub target_1 p) p ;;
      let reward_pct := nmul r (Fin 100) in
      price' <- py_format ",.4f" price ;;
      Ok (nl ++ "🚨 *ALERTA DE ALTA PUNTUACIÓN*" ++ nl
          ++ nl
          ++ "*" ++ py_str str_other (symbol signal) ++ "* ("
             ++ py_str str_other (name signal) ++ ")" ++ nl
          ++ "⭐ Score: *" ++ fmt ".1f" (final_score signal) ++ "/10*" ++ nl
          ++ nl
          ++ "💰 $" ++ price' ++ nl
          ++ "🎯 Target 1: $" ++ fmt ",.4f" target_1 ++ " (+"
             ++ fmt ".1f" reward_pct ++ "%)" ++ nl
          ++ nl
          ++ "🔥 Oportunidad excepcional detectada" ++ nl)%string) ;;
    _ <~ send_message alert ;;
    done tt.

(** [for signal in top_signals: telegram.send_high_score_alert(signal)]. *)
Fixpoint send_alerts (top_signals : list CryptoSignal) : sent unit :=
  match top_signals with
  | [] => done tt
  | signal :: rest =>
      _ <~ send_high_score_alert signal ;;
      send_alerts rest
  end.

End Notifier.

End TelegramNotifier.

Import TelegramNotifier.

(** [run_crypto_analysis] (src/app.py). The stages write and read their
    files without an error; [collected] is what [collect_data] returns
    or raises. *)
Section App.

Variable fmt : string -> number -> string.
Variable str_other : pyval -> string.
Variable str_int : nat -> string.
Variable strftime_now : string.
Variable delivered : string -> bool.
Variable dict_slice_error : exn.
(** The clock readings [start_time.isoformat()], the one of
    [analyze_all], the ones of the selector, and the one of the handler;
    [duration] is [round(duration, 2)]. *)
Variable start_time : string.
Variable analysis_time : string.
Variable clock : nat -> string.
Variable failure_time : string.
Variable duration : number.
(** [str(e)]. *)
Variable str_exn : exn -> string.

(** The body of the [try] block: the status it assigns to [last_run]. *)
Definition pipeline (collected : res pyval) : sent last_run :=
  crypto_data <~ lift collected ;;
  coins <~ lift (getitem crypto_data "coins") ;;
  if negb (truthy coins) then
    done (mk_last_run start_time "Failed - No data" 0 None)
  else
    technical_data <~ lift (analyze_all analysis_time crypto_data) ;;
    analyzed_coins <~ lift (getitem technical_data "analyzed_coins") ;;
    if negb (truthy analyzed_coins) then
      done (mk_last_run start_time "Failed - Analysis error" 0 None)
    else
      result <~ lift (selection_result str_other clock technical_data) ;;
      let top_signals := r_top_opportunities result in
      let data := result_dict result in
      _ <~ send_analysis_report fmt str_other str_int strftime_now
             delivered dict_slice_error data ;;
      _ <~ send_alerts fmt str_other delivered top_signals ;;
      done (mk_last_run start_time "Success" (List.length top_signals)
              (Some duration)).

(** The messages sent and the value of [last_run] when the call is over. *)
Definition run_crypto_analysis (collected : res pyval)
    : list string * last_run :=
  match pipeline collected with
  | (w, Ok status) => (w, status)
  | (w, Raise e) =>
      (w, mk_last_run failure_time ("Failed - " ++ str_exn e)%string 0 None)
  end.

End App.

(** ** What the notifier needs of a signal *)


(** Renderings that print nothing, for the sample runs. *)
Definition no_format (spec : string) (x : number) : string := "".
Definition no_digits (n : nat) : string := "".

(** ** The result of the sample selection *)

(** The result dict of the selection over the sample batch. *)
Definition sample_result : run_result :=
  Eval vm_compute in
    match selection_result no_text fixed_clock sample_batch with
    | Ok r => r
    | Raise _ => mk_result "" PyNone 0 0 []
    end.

Definition always_delivered (text : string) : bool := true.

(** ** Batches on which a run completes *)




(** A batch as the collector returns it, holding the sample coin. *)
Definition sample_collected : res pyval :=
  Ok (PyDict [("timestamp", PyStr "2024-01-01T09:00:00");
              ("market_context",
               PyDict [("btc_dominance", PyNum (Fin 52));
                       ("total_market_cap", PyNum (Fin 2000000000000))]);
              ("coins",
               PyList [sample_coin "AAA" (PyNum (Fin 20000000000))])]).

Definition no_reason (e : exn) : string := "".

(* ================================================================== *)
(** * Properties *)
(* ================================================================== *)

(* ------------------------------------------------------------------ *)
(** ** Exceptions: inverting a sequence of binds *)
(* ------------------------------------------------------------------ *)

Lemma bind_ok {A B : Type} (m : res A) (k : A -> res B) (b : B) :
  bind m k = Ok b -> exists a, m = Ok a /\ k a = Ok b.
Proof. destruct m as [a|e]; simpl; intros H; [eauto | discriminate]. Qed.

(* ------------------------------------------------------------------ *)
(** ** Comparisons and rounding *)
(* ------------------------------------------------------------------ *)

Lemma Qltb_true (a b : Q) : Qltb a b = true <-> a < b.
Proof.
  unfold Qltb. rewrite negb_true_iff. split; intros H.
  - apply Qnot_le_lt. intros H'. apply Qle_bool_iff in H'. congruence.
  - destruct (Qle_bool b a) eqn:E; [|reflexivity].
    apply Qle_bool_iff in E. lra.
Qed.

Lemma Qltb_false (a b : Q) : Qltb a b = false <-> b <= a.
Proof.
  unfold Qltb. rewrite negb_false_iff. apply Qle_bool_iff.
Qed.

Lemma round_half_even_lower (k : Z) (q : Q) :
  inject_Z k <= q -> (k <= round_half_even q)%Z.
Proof.
  intros H. unfold round_half_even.
  assert (Hf : (k <= Qfloor q)%Z).
  { rewrite <- (Qfloor_Z k). now apply Qfloor_resp_le. }
  destruct (q - inject_Z (Qfloor q) ?= 1 # 2); [destruct (Z.even _)| |]; lia.
Qed.

Lemma round_half_even_upper (k : Z) (q : Q) :
  q <= inject_Z k -> (round_half_even q <= k)%Z.
Proof.
  intros H. unfold round_half_even.
  pose proof (Qfloor_le q) as Hfl.
  assert (Hf : (Qfloor q <= k)%Z).
  { rewrite Zle_Qle. lra. }
  destruct (Z.eq_dec (Qfloor q) k) as [E|E].
  - assert (Hq : q == inject_Z k). { rewrite E in Hfl. lra. }
    assert (Hc : (q - inject_Z (Qfloor q) ?= 1 # 2) = Lt).
    { rewrite <- Qlt_alt, E. lra. }
    rewrite Hc. lia.
  - destruct (q - inject_Z (Qfloor q) ?= 1 # 2); [destruct (Z.even _)| |]; lia.
Qed.

Lemma round_ndigits_bounds (n : nat) (a b : Z) (q : Q) :
  inject_Z a <= q * inject_Z (Zpos (pow10 n)) <= inject_Z b ->
  a # pow10 n <= round_ndigits n q <= b # pow10 n.
Proof.
  intros [Ha Hb]. unfold round_ndigits.
  apply round_half_even_lower in Ha. apply round_half_even_upper in Hb.
  unfold Qle; simpl. split; apply Z.mul_le_mono_nonneg_r; lia.
Qed.

Lemma round2_range (lo hi : Z) (q : Q) :
  inject_Z lo <= q <= inject_Z hi ->
  inject_Z lo <= round_ndigits 2 q <= inject_Z hi.
Proof.
  intros [Hl Hh].
  destruct (round_ndigits_bounds 2 (lo * 100) (hi * 100) q) as [H1 H2].
  { change (Zpos (pow10 2)) with 100%Z. rewrite !inject_Z_mult.
    change (inject_Z 100) with 100. lra. }
  change (pow10 2) with 100%positive in *.
  assert (E1 : lo * 100 # 100 == inject_Z lo).
  { unfold Qeq; simpl. lia. }
  assert (E2 : hi * 100 # 100 == inject_Z hi).
  { unfold Qeq; simpl. lia. }
  lra.
Qed.

(* ------------------------------------------------------------------ *)
(** ** Series: the last entry *)
(* ------------------------------------------------------------------ *)

Lemma iloc_last_snoc {A : Type} (l : list A) (x : A) :
  iloc_last (l ++ [x]) = Ok x.
Proof. unfold iloc_last. now rewrite rev_unit. Qed.


Lemma zip_with_length {A B C : Type} (f : A -> B -> C) xs ys :
  List.length xs = List.length ys ->
  List.length (zip_with f xs ys) = List.length xs.
Proof.
  revert ys; induction xs as [|x xs IH]; intros [|y ys] H; simpl in *;
    try discriminate; auto.
Qed.

Lemma zip_with_app {A B C : Type} (f : A -> B -> C) xs xs' ys ys' :
  List.length xs = List.length ys ->
  zip_with f (xs ++ xs') (ys ++ ys') = zip_with f xs ys ++ zip_with f xs' ys'.
Proof.
  revert ys; induction xs as [|x xs IH]; intros [|y ys] H; simpl in *;
    try discriminate; auto.
  f_equal. apply IH. lia.
Qed.

Lemma iloc_last_zip_with {A B C : Type} (f : A -> B -> C) xs ys :
  List.length xs = List.length ys ->
  iloc_last (zip_with f xs ys) =
  x <- iloc_last xs ;; y <- iloc_last ys ;; Ok (f x y).
Proof.
  intros H.
  destruct xs as [|a xs0] using rev_ind.
  - reflexivity.
  - destruct ys as [|b ys0] using rev_ind.
    + rewrite length_app in H. simpl in H. lia.
    + rewrite !length_app in H. simpl in H.
      rewrite zip_with_app by lia. simpl.
      now rewrite !iloc_last_snoc.
Qed.


Lemma iloc_last_rolling_mean w xs :
  xs <> [] -> iloc_last (rolling_mean w xs) = Ok (window_mean w xs).
Proof.
  intros H. unfold rolling_mean.
  destruct (List.length xs) as [|n] eqn:E.
  { destruct xs; [congruence | discriminate]. }
  rewrite seq_S, map_app. cbn [map]. rewrite iloc_last_snoc.
  rewrite Nat.add_0_l, <- E, firstn_all. reflexivity.
Qed.

Lemma diff_from_length p xs : List.length (diff_from p xs) = List.length xs.
Proof. revert p; induction xs; simpl; auto. Qed.

Lemma diff_length xs : List.length (diff xs) = List.length xs.
Proof. destruct xs; simpl; [|rewrite diff_from_length]; auto. Qed.


Lemma losses_length prices : List.length (losses prices) = List.length prices.
Proof.
  unfold losses, where_or_zero. now rewrite !length_map, diff_length.
Qed.

(* ------------------------------------------------------------------ *)
(** ** RSI *)
(* ------------------------------------------------------------------ *)



Lemma fold_nadd_nonneg xs acc :
  nonneg acc -> Forall nonneg xs -> nonneg (fold_left nadd xs acc).
Proof.
  revert acc; induction xs as [|x xs IH]; intros acc Ha Hx; simpl; auto.
  inversion Hx as [|? ? Hx1 Hx2]; subst.
  apply IH; auto.
  destruct acc, x; simpl in *; try contradiction. lra.
Qed.

Lemma nsum_nonneg xs : Forall nonneg xs -> nonneg (nsum xs).
Proof. apply fold_nadd_nonneg. simpl. lra. Qed.

Lemma Forall_lastn {A : Type} (P : A -> Prop) n (xs : list A) :
  Forall P xs -> Forall P (lastn n xs).
Proof.
  intros H. unfold lastn. rewrite Forall_forall in *.
  intros x Hx. apply H.
  rewrite <- (firstn_skipn (List.length xs - n) xs).
  apply in_or_app. now right.
Qed.

Lemma Q_of_nat_pos (w : nat) : (0 < w)%nat -> 0 < inject_Z (Z.of_nat w).
Proof. intros H. change 0 with (inject_Z 0). rewrite <- Zlt_Qlt. lia. Qed.

Lemma window_mean_nonneg_window w xs :
  (0 < w)%nat -> (w <= List.length xs)%nat ->
  Forall nonneg (lastn w xs) -> nonneg (window_mean w xs).
Proof.
  intros Hw Hl Hx. unfold window_mean.
  apply Nat.ltb_ge in Hl. rewrite Hl.
  pose proof (nsum_nonneg _ Hx) as Hs.
  pose proof (Q_of_nat_pos w Hw) as Hq.
  destruct (nsum (lastn w xs)) as [s| | |]; simpl in *; try contradiction.
  destruct (Qeq_bool (inject_Z (Z.of_nat w)) 0) eqn:E.
  - apply Qeq_bool_iff in E. lra.
  - simpl. apply Qle_shift_div_l; lra.
Qed.


Lemma window_mean_zero xs : window_mean 0 xs = NaN.
Proof.
  unfold window_mean, lastn. simpl.
  rewrite Nat.sub_0_r, skipn_all. reflexivity.
Qed.








Lemma ndiv_fin_nonzero (a b : Q) :
  ~ b == 0 -> ndiv (Fin a) (Fin b) = Fin (a / b).
Proof.
  intros H. simpl. destruct (Qeq_bool b 0) eqn:E; [|reflexivity].
  apply Qeq_bool_iff in E. contradiction.
Qed.








(* ------------------------------------------------------------------ *)
(** ** RSI of a window without losses *)
(* ------------------------------------------------------------------ *)

Lemma lastn_map {A B : Type} (f : A -> B) n (l : list A) :
  lastn n (map f l) = map f (lastn n l).
Proof. unfold lastn. now rewrite length_map, skipn_map. Qed.

Lemma fold_nadd_zero xs acc :
  acc =n= Fin 0 -> Forall (fun x => x =n= Fin 0) xs ->
  fold_left nadd xs acc =n= Fin 0.
Proof.
  revert acc; induction xs as [|x xs IH]; intros acc Ha Hx; simpl; auto.
  inversion Hx as [|? ? Hx1 Hx2]; subst. apply IH; auto.
  destruct acc, x; simpl in *; try contradiction. lra.
Qed.

(** The average loss is 0 exactly in the situation the claim describes:
    no difference of the trailing window is negative. *)
Lemma avg_loss_zero_of_nondecreasing (prices : list Q) (period : nat) :
  (0 < period)%nat ->
  (period + 1 <= List.length prices)%nat ->
  Forall (fun d => nlt d (Fin 0) = false) (lastn period (diff prices)) ->
  avg_loss prices period =n= Fin 0.
Proof.
  intros Hp Hlen Hd. unfold avg_loss, window_mean.
  rewrite losses_length.
  replace (List.length prices <? period)%nat with false
    by (symmetry; apply Nat.ltb_ge; lia).
  unfold losses, where_or_zero. rewrite !lastn_map.
  assert (Hs : nsum (map nneg
                  (map (fun d => if nlt d (Fin 0) then d else Fin 0)
                     (lastn period (diff prices)))) =n= Fin 0).
  { apply fold_nadd_zero; [simpl; lra|].
    induction Hd as [|d ds Hd1 _ IH]; simpl; constructor; auto.
    rewrite Hd1. simpl. lra. }
  destruct (nsum _) as [s| | |]; simpl in Hs; try contradiction.
  pose proof (Q_of_nat_pos period Hp) as Hq.
  rewrite ndiv_fin_nonzero by lra. simpl. rewrite Hs.
  unfold Qdiv. ring.
Qed.

(** Splits a hypothesis [x <- m ;; k = Ok r] into its steps. *)
(* ------------------------------------------------------------------ *)
(** ** Scores *)
(* ------------------------------------------------------------------ *)

Ltac inv_binds H :=
  repeat (cbv beta zeta in H;
          match type of H with
          | bind _ _ = Ok _ =>
              let v := fresh "v" in
              let E := fresh "E" in
              apply bind_ok in H; destruct H as (v & E & H)
          end);
  cbv beta zeta in H.

(** Runs [tac] on the value a hypothesis gives for the key [k]. *)
Ltac with_key k tac :=
  match goal with
  | Hk : getitem _ k = Ok ?x |- _ => tac x
  end.

(** What [calculate_score] returns, by the conditions it tested. *)
Lemma calculate_score_inv (analysis : pyval) (s : scores) :
  calculate_score analysis = Ok s ->
  exists (ema_aligned ema_cross rsi_bullish volume_surge high_volume
          macd_buy trend_bullish rsi_mid : bool)
         (atr_pct multiplier : number) (cap : pyval),
    atr_pct_of analysis = Ok atr_pct /\
    getitem analysis "market_cap" = Ok cap /\
    market_cap_multiplier cap = Ok multiplier /\
    let momentum := momentum_of ema_aligned ema_cross rsi_bullish in
    let volume := volume_of volume_surge high_volume in
    let technical := technical_of macd_buy trend_bullish rsi_mid in
    let risk := risk_of atr_pct in
    s = mk_scores (py_round momentum 2) (py_round volume 2)
          (py_round technical 2) (py_round risk 2)
          (py_round (nmul (blend momentum volume technical risk) multiplier) 2).
Proof.
  intros H. unfold calculate_score in H. inv_binds H.
  injection H as <-.
  with_key "ema_aligned" ltac:(fun a => exists (truthy a)).
  with_key "ema_cross" ltac:(fun a => exists (truthy a)).
  with_key "rsi_bullish" ltac:(fun a => exists (truthy a)).
  with_key "volume_surge" ltac:(fun a => exists (truthy a)).
  with_key "volume_24h" ltac:(fun a =>
    match goal with
    | Hn : as_num a = Ok ?y |- _ => exists (nlt (Fin 50000000) y)
    end).
  with_key "macd_signal" ltac:(fun a => exists (eq_str a "buy")).
  with_key "trend" ltac:(fun a => exists (eq_str a "bullish")).
  with_key "rsi_value" ltac:(fun a =>
    match goal with
    | Hn : as_num a = Ok ?y |- _ =>
        exists (nle (Fin 40) y && nle y (Fin 60))
    end).
  do 3 eexists.
  split.
  { unfold atr_pct_of.
    match goal with
    | Hi : getitem analysis "indicators" = Ok _ |- _ => rewrite Hi
    end. cbn [bind].
    match goal with Hm : get_method _ = Ok _ |- _ => rewrite Hm end.
    cbn [bind]. eassumption. }
  split; [eassumption|]. split; [eassumption|]. reflexivity.
Qed.


(** C5. [market_cap_multiplier] returns 0.0 for a cap of 100,000,000 or
    less, 0.95 above 100,000,000 up to 1,000,000,000 included, 1.0 above
    that up to 10,000,000,000 included, and 1.1 above 10,000,000,000. *)
Theorem market_cap_multiplier_tiers (cap : number) :
  exists m,
    market_cap_multiplier (PyNum cap) = Ok (Fin m) /\
    (nle cap (Fin 100000000) = true -> m = 0.0) /\
    (nlt (Fin 100000000) cap = true -> nle cap (Fin 1000000000) = true ->
     m = 0.95) /\
    (nlt (Fin 1000000000) cap = true -> nle cap (Fin 10000000000) = true ->
     m = 1.0) /\
    (nlt (Fin 10000000000) cap = true -> m = 1.1).
Proof.
  unfold market_cap_multiplier. cbn [as_num bind].
  destruct cap as [c| | |]; cbn [nlt nle].
  - destruct (Qltb 10000000000 c) eqn:E1;
      [|destruct (Qltb 1000000000 c) eqn:E2;
        [|destruct (Qltb 100000000 c) eqn:E3]];
      eexists; (split; [reflexivity|]);
      rewrite ?Qltb_true, ?Qltb_false in *;
      repeat split; intros;
      repeat match goal with
             | H : Qle_bool _ _ = true |- _ => apply Qle_bool_iff in H
             | H : Qltb _ _ = true |- _ => apply Qltb_true in H
             end;
      try reflexivity; exfalso; lra.
  - eexists; split; [reflexivity|]. repeat split; intros; congruence.
  - eexists; split; [reflexivity|]. repeat split; intros; congruence.
  - eexists; split; [reflexivity|]. repeat split; intros; congruence.
Qed.

Lemma momentum_of_cases a b c :
  exists q, momentum_of a b c = Fin q /\ 2 <= q <= 10 /\
            round_ndigits 2 q == q.
Proof.
  destruct a, b, c; eexists; (split; [reflexivity|]);
    (split; [split|]); vm_compute; congruence.
Qed.

Lemma volume_of_cases a b :
  exists q, volume_of a b = Fin q /\ 4 <= q <= 10 /\
            round_ndigits 2 q == q.
Proof.
  destruct a, b; eexists; (split; [reflexivity|]);
    (split; [split|]); vm_compute; congruence.
Qed.

Lemma technical_of_cases a b c :
  exists q, technical_of a b c = Fin q /\ 3 <= q <= 10 /\
            round_ndigits 2 q == q.
Proof.
  destruct a, b, c; eexists; (split; [reflexivity|]);
    (split; [split|]); vm_compute; congruence.
Qed.






(** The score the sample record gets: momentum 10, volume 10, technical
    10, risk 10 - 2 * 1.2 = 7.6, blended to 9.64 and scaled by 1.1. *)
Example calculate_score_sample :
  exists s,
    calculate_score (sample_record "ONE" 20000000000 2) = Ok s /\
    s_risk_score s =n= Fin 7.6 /\
    s_final_score s =n= Fin 10.6.
Proof.
  eexists. split; [vm_compute; reflexivity|].
  split; vm_compute; reflexivity.
Qed.

(* ------------------------------------------------------------------ *)
(** ** Price levels *)
(* ------------------------------------------------------------------ *)

Lemma round2_of_eq (k : Z) (q : Q) :
  q == inject_Z k -> round_ndigits 2 q == inject_Z k.
Proof.
  intros E. pose proof (round2_range k k q) as H.
  assert (inject_Z k <= q <= inject_Z k) as Hq by (rewrite E; lra).
  specialize (H Hq). lra.
Qed.




(* ------------------------------------------------------------------ *)
(** ** ATR is not negative *)
(* ------------------------------------------------------------------ *)

Lemma lastn_cons {A : Type} (n : nat) (x : A) (xs : list A) :
  (n <= List.length xs)%nat -> lastn n (x :: xs) = lastn n xs.
Proof.
  intros H. unfold lastn. simpl List.length.
  replace (S (List.length xs) - n)%nat with (S (List.length xs - n)) by lia.
  reflexivity.
Qed.

Lemma removelast_length {A : Type} (l : list A) :
  List.length (removelast l) = Nat.pred (List.length l).
Proof.
  rewrite removelast_firstn_len, length_firstn. lia.
Qed.

Lemma true_range_nonneg (b : bar) (c : Q) : nonneg (true_range b (Fin c)).
Proof.
  unfold true_range. cbn [nsub nadd nneg nabs nanmax nlt].
  pose proof (Qabs_nonneg (bar_high b + - c)).
  pose proof (Qabs_nonneg (bar_low b + - c)).
  repeat match goal with
         | |- context [Qltb ?a ?b] =>
             let E := fresh "E" in
             destruct (Qltb a b) eqn:E;
             [apply Qltb_true in E | apply Qltb_false in E]
         end; cbn [nonneg nlt]; 
  repeat match goal with
         | |- context [Qltb ?a ?b] =>
             let E := fresh "E" in
             destruct (Qltb a b) eqn:E;
             [apply Qltb_true in E | apply Qltb_false in E]
         end; cbn [nonneg]; lra.
Qed.

Lemma true_ranges_nonneg (df : list bar) (cs : list Q) :
  Forall nonneg (zip_with true_range df (map Fin cs)).
Proof.
  revert cs; induction df as [|b df IH]; intros [|c cs]; simpl;
    constructor; auto using true_range_nonneg.
Qed.

(** The ATR is never negative: the window of the last entry does not
    reach the first row, and every later true range is at least an
    absolute value. *)
Lemma calculate_atr_nonneg (df : list bar) (period : nat) (r : number) :
  calculate_atr df period = Ok r -> nonneg r.
Proof.
  unfold calculate_atr.
  destruct (List.length df <? period + 1)%nat eqn:Hlen.
  { intros H; injection H as <-. simpl. lra. }
  apply Nat.ltb_ge in Hlen.
  destruct df as [|b0 df]; [simpl in Hlen; lia|].
  cbn [map shift1 zip_with].
  set (tr := zip_with true_range df _).
  set (t0 := true_range b0 NaN).
  rewrite iloc_last_rolling_mean by discriminate.
  cbn [bind]. intros H; injection H as <-.
  destruct period as [|p].
  { rewrite window_mean_zero. simpl. lra. }
  assert (Hn : nonneg (window_mean (S p) (t0 :: tr))).
  { assert (Htl : List.length tr = List.length df).
    { subst tr. apply zip_with_length.
      rewrite length_map, removelast_length. simpl.
      now rewrite length_map. }
    apply window_mean_nonneg_window; [lia | simpl in *; lia |].
    rewrite lastn_cons by (simpl in *; lia).
    apply Forall_lastn. subst tr. apply true_ranges_nonneg. }
  destruct (window_mean (S p) (t0 :: tr)); simpl in *; try contradiction.
  assumption.
Qed.

(** As [inv_binds], going into the branch of each [if] that can reach
    [Ok]. *)
(* ------------------------------------------------------------------ *)
(** ** The record analyze_coin builds *)
(* ------------------------------------------------------------------ *)

Ltac inv_steps H :=
  repeat (cbv beta zeta in H;
          match type of H with
          | bind _ _ = Ok _ =>
              let v := fresh "v" in
              let E := fresh "E" in
              apply bind_ok in H; destruct H as (v & E & H)
          | (if ?c then _ else _) = Ok _ =>
              let C := fresh "C" in
              destruct c eqn:C; try discriminate H
          end);
  cbv beta zeta in H.



Lemma analyze_coin_some (coin_data a : pyval) :
  analyze_coin coin_data = Ok (Some a) ->
  analyze_coin_try coin_data = Ok (Some a).
Proof.
  unfold analyze_coin. destruct (analyze_coin_try coin_data) as [r|e].
  - auto.
  - destruct (get_method coin_data); simpl; discriminate.
Qed.


(** A record built by hand can carry a negative [atr_percent]; the risk
    score has no upper clamp, so the ranges above are a property of the
    records [analyze_coin] builds, not of [calculate_score] alone. *)
Example risk_score_unclamped :
  exists s,
    calculate_score (sample_record "NEG" 20000000000 (-10)) = Ok s /\
    s_risk_score s =n= Fin 22.
Proof.
  eexists. split; [vm_compute; reflexivity|]. vm_compute. reflexivity.
Qed.


(* ------------------------------------------------------------------ *)
(** ** Short series *)
(* ------------------------------------------------------------------ *)


(** C9. For a coin whose [ohlc] list has fewer than 20 bars (or none),
    [analyze_coin] returns [None] without raising, and the loop of
    [analyze_all] gives the same result as on the batch without that
    coin. *)
Theorem analyze_coin_short_series
    (coin : list (string * pyval)) (rows : list pyval) :
  get_or coin "ohlc" (PyList []) = PyList rows ->
  (List.length rows < 20)%nat ->
  analyze_coin (PyDict coin) = Ok None /\
  forall before after analyzed_coins,
    analyze_each (before ++ PyDict coin :: after) analyzed_coins =
    analyze_each (before ++ after) analyzed_coins.
Proof.
  intros Hget Hlen.
  assert (Hnone : analyze_coin (PyDict coin) = Ok None).
  { unfold analyze_coin, analyze_coin_try. cbn [get_method bind].
    rewrite Hget. cbn [truthy py_len bind].
    destruct rows as [|r rows]; [reflexivity|].
    cbn [List.length Nat.eqb negb]. apply Nat.ltb_lt in Hlen.
    cbn [List.length] in Hlen. now rewrite Hlen. }
  split; [exact Hnone|].
  induction before as [|b before IH]; intros after acc.
  - cbn [app analyze_each]. rewrite Hnone. reflexivity.
  - cbn [app analyze_each].
    destruct (analyze_coin b) as [[x|]|e]; cbn [bind]; auto.
    destruct (truthy x); auto.
Qed.

(** C9 at a coin with 5 bars. *)
Lemma analyze_coin_short_series_witness :
  analyze_coin
    (PyDict [("symbol", PyStr "NEW"); ("ohlc", PyList (firstn 5 sample_rows))])
  = Ok None /\
  forall before after analyzed_coins,
    analyze_each
      (before ++
       PyDict [("symbol", PyStr "NEW");
               ("ohlc", PyList (firstn 5 sample_rows))] :: after)
      analyzed_coins =
    analyze_each (before ++ after) analyzed_coins.
Proof.
  apply (analyze_coin_short_series _ (firstn 5 sample_rows)).
  - reflexivity.
  - vm_compute. lia.
Defined.

(* ------------------------------------------------------------------ *)
(** ** Where the pipeline can and cannot fail *)
(* ------------------------------------------------------------------ *)



Section Totality.

Variable str_other : pyval -> string.
Variable clock : nat -> string.



End Totality.


Section Isolation.

Variable str_other : pyval -> string.
Variable clock : nat -> string.





End Isolation.



(* ------------------------------------------------------------------ *)
(** ** Ranking and selection *)
(* ------------------------------------------------------------------ *)

Section Ranking.

Variable str_other : pyval -> string.
Variable clock : nat -> string.

Lemma build_signal_inv (a : pyval) (n : nat) (s : CryptoSignal) :
  build_signal str_other clock a n = Ok (Some s) ->
  (exists c, as_num (market_cap s) = Ok c /\
             nlt c (Fin 100000000) = false) /\
  nlt (final_score s) (Fin 7.5) = false /\
  btc_correlation s = Fin 0.75 /\
  pair s = (py_str str_other (symbol s) ++ "/USDT")%string /\
  getitem a "symbol" = Ok (symbol s) /\
  timestamp s = clock n.
Proof.
  intros H. unfold build_signal in H. inv_steps H.
  injection H as <-.
  cbn [market_cap final_score btc_correlation pair symbol timestamp].
  repeat match goal with
         | H1 : getitem a ?k = Ok ?x, H2 : getitem a ?k = Ok ?y |- _ =>
             rewrite H1 in H2; injection H2 as <-
         end.
  repeat split; try assumption; try reflexivity.
  eexists. split; eassumption.
Qed.

Lemma score_each_spec (coins : list pyval) :
  forall scored_coins out,
    score_each str_other clock coins scored_coins = Ok out ->
    exists qualifying signals,
      out = scored_coins ++ signals /\
      subseq qualifying coins /\
      Forall2 (built str_other clock) qualifying signals.
Proof.
  induction coins as [|a coins IH]; intros acc out H.
  - injection H as <-. exists [], []. rewrite app_nil_r.
    repeat split; constructor.
  - cbn [score_each] in H. inv_steps H. destruct v as [s|].
    + apply IH in H. destruct H as (qs & sigs & -> & Hsub & Hb).
      exists (a :: qs), (s :: sigs). rewrite <- app_assoc.
      repeat split; [now constructor|].
      constructor; [eexists; eassumption | assumption].
    + apply IH in H. destruct H as (qs & sigs & -> & Hsub & Hb).
      exists qs, sigs. repeat split; [now constructor | assumption].
Qed.

Lemma built_Forall (P : CryptoSignal -> Prop) qualifying signals :
  (forall a n s, build_signal str_other clock a n = Ok (Some s) -> P s) ->
  Forall2 (built str_other clock) qualifying signals -> Forall P signals.
Proof.
  intros HP H. induction H as [|a s qs sigs [n Hb] _ IH]; constructor; eauto.
Qed.

End Ranking.

Lemma insert_desc_Forall (P : CryptoSignal -> Prop) x l :
  P x -> Forall P l -> Forall P (insert_desc x l).
Proof.
  intros Hx Hl. induction Hl as [|y l Hy Hl IH]; simpl.
  - repeat constructor; assumption.
  - destruct (nlt (final_score x) (final_score y)); repeat constructor; auto.
Qed.

Lemma sort_desc_Forall (P : CryptoSignal -> Prop) l :
  Forall P l -> Forall P (sort_desc l).
Proof.
  induction 1; simpl; [constructor | now apply insert_desc_Forall].
Qed.

Lemma nlt_asym (x y : number) : nlt x y = true -> nlt y x = false.
Proof.
  destruct x, y; simpl; try congruence. intros H.
  apply Qltb_true in H. apply Qltb_false. lra.
Qed.

Lemma insert_desc_sorted x l :
  Sorted not_below l -> Sorted not_below (insert_desc x l).
Proof.
  induction 1 as [|y l Hs IH Hd]; simpl.
  - repeat constructor.
  - destruct (nlt (final_score x) (final_score y)) eqn:E.
    + constructor; [assumption|].
      destruct l as [|z l]; simpl.
      * constructor. now apply nlt_asym.
      * destruct (nlt (final_score x) (final_score z)) eqn:E2;
          constructor; [now inversion Hd | now apply nlt_asym].
    + constructor; [now constructor | now constructor].
Qed.

Lemma sort_desc_sorted l : Sorted not_below (sort_desc l).
Proof.
  induction l; simpl; [constructor | now apply insert_desc_sorted].
Qed.





Lemma not_below_trans a b c :
  notna (final_score b) = true ->
  not_below a b -> not_below b c -> not_below a c.
Proof.
  unfold not_below.
  destruct (final_score a), (final_score b), (final_score c); simpl;
    try congruence; intros _ H1 H2.
  apply Qltb_false in H1, H2. apply Qltb_false. lra.
Qed.

Lemma sorted_strongly l :
  Forall (fun s => notna (final_score s) = true) l ->
  Sorted not_below l -> StronglySorted not_below l.
Proof.
  intros Hn Hs. induction Hs as [|a l Hs IH Hd]; [constructor|].
  inversion Hn as [|? ? Ha Hl]; subst.
  specialize (IH Hl). constructor; [assumption|].
  destruct Hd as [|b l Hab]; [constructor|].
  inversion IH as [|? ? Hss Hall]; subst.
  inversion Hl as [|? ? Hb _]; subst.
  constructor; [assumption|].
  eapply Forall_impl; [|exact Hall].
  intros c Hbc. eapply not_below_trans; eassumption.
Qed.

Lemma Forall_take {A : Type} (P : A -> Prop) n (l : list A) :
  Forall P l -> Forall P (firstn n l).
Proof.
  intros H. rewrite Forall_forall in *. intros x Hx. apply H.
  rewrite <- (firstn_skipn n l). apply in_or_app. now left.
Qed.

Section RankingTheorems.

Variable str_other : pyval -> string.
Variable clock : nat -> string.

Lemma select_top_inv (technical_data : pyval) (top : list CryptoSignal) :
  select_top_opportunities str_other clock technical_data = Ok top ->
  exists items coins scored_coins,
    getitem technical_data "analyzed_coins" = Ok items /\
    py_iter items = Ok coins /\
    score_each str_other clock coins [] = Ok scored_coins /\
    top = firstn 10 (sort_desc scored_coins).
Proof.
  intros H. unfold select_top_opportunities, selection_result in H.
  inv_steps H. injection H as <-.
  match goal with
  | Hr : bind _ _ = Ok _ |- _ => inv_steps Hr; injection Hr as <-
  end.
  cbn [r_top_opportunities].
  match goal with
  | Hs : scored _ _ _ = Ok _ |- _ => unfold scored in Hs; inv_steps Hs
  end.
  eauto 10.
Qed.


(** C10. Every signal [select_top_opportunities] returns has
    [btc_correlation] 0.75 and [pair] equal to its symbol followed by
    "/USDT". *)
Theorem signals_have_fixed_correlation
    (technical_data : pyval) (top : list CryptoSignal) :
  select_top_opportunities str_other clock technical_data = Ok top ->
  Forall (fun s =>
            btc_correlation s = Fin 0.75 /\
            pair s = (py_str str_other (symbol s) ++ "/USDT")%string /\
            forall text, symbol s = PyStr text ->
                         pair s = (text ++ "/USDT")%string) top.
Proof.
  intros H. apply select_top_inv in H.
  destruct H as (items & coins & sc & Hitems & Hiter & Hsc & ->).
  apply score_each_spec in Hsc.
  destruct Hsc as (qs & sigs & Hout & Hsub & Hbuilt).
  cbn [app] in Hout. subst sc.
  apply Forall_take, sort_desc_Forall.
  eapply built_Forall; [|exact Hbuilt].
  intros a n s Hb. apply build_signal_inv in Hb.
  destruct Hb as (_ & _ & Hc & Hp & _).
  repeat split; try assumption.
  intros text Ht. rewrite Hp, Ht. reflexivity.
Qed.

End RankingTheorems.

Lemma sample_top_selected :
  select_top_opportunities no_text fixed_clock sample_batch = Ok sample_top.
Proof. vm_compute. reflexivity. Qed.


(** C10 at the sample batch. *)
Lemma signals_have_fixed_correlation_witness :
  Forall (fun s =>
            btc_correlation s = Fin 0.75 /\
            pair s = (py_str no_text (symbol s) ++ "/USDT")%string /\
            forall text, symbol s = PyStr text ->
                         pair s = (text ++ "/USDT")%string) sample_top.
Proof.
  apply (signals_have_fixed_correlation no_text fixed_clock sample_batch).
  vm_compute. reflexivity.
Defined.

(** The selection over the sample batch: TINY is under the market-cap
    floor; ONE and TWO have equal scores and keep their order. *)
Example sample_top_symbols :
  map symbol sample_top = [PyStr "TOP"; PyStr "ONE"; PyStr "TWO"; PyStr "LOW"]
  /\ map pair sample_top = ["TOP/USDT"; "ONE/USDT"; "TWO/USDT"; "LOW/USDT"].
Proof. split; reflexivity. Qed.

(* ------------------------------------------------------------------ *)
(** ** The exponential moving average *)
(* ------------------------------------------------------------------ *)

(* ---------------- EMA ---------------- *)

Lemma ewm_from_length alpha prev xs :
  List.length (ewm_from alpha prev xs) = List.length xs.
Proof. revert prev; induction xs; simpl; auto. Qed.

Lemma ewm_mean_length span xs :
  List.length (ewm_mean span xs) = List.length xs.
Proof. destruct xs; simpl; [|rewrite ewm_from_length]; auto. Qed.

Lemma ewm_from_between alpha lo hi prev xs :
  0 <= alpha <= 1 -> lo <= prev <= hi ->
  Forall (fun x => lo <= x <= hi) xs ->
  Forall (fun y => lo <= y <= hi) (ewm_from alpha prev xs).
Proof.
  intros Ha Hp Hx. revert prev Hp.
  induction Hx as [|x xs Hx1 _ IH]; intros prev Hp; simpl; constructor.
  - split; nra.
  - apply IH. split; nra.
Qed.

Lemma smoothing_factor_unit (period : nat) :
  (1 <= period)%nat -> 0 <= 2 / (inject_Z (Z.of_nat period) + 1) <= 1.
Proof.
  intros H.
  assert (1 <= inject_Z (Z.of_nat period)).
  { change 1 with (inject_Z 1). rewrite <- Zle_Qle. lia. }
  split.
  - apply Qle_shift_div_l; lra.
  - apply Qle_shift_div_r; lra.
Qed.

(** X1. For a period of at least 1, calculate_ema returns a series as
    long as the price series, and every entry of it lies between any two
    bounds that enclose all the prices: the EMA never leaves the range
    from the lowest to the highest price. *)
Theorem calculate_ema_between (prices : list Q) (period : nat) (lo hi : Q) :
  (1 <= period)%nat ->
  Forall (fun x => lo <= x <= hi) prices ->
  List.length (calculate_ema prices period) = List.length prices /\
  Forall (fun y => lo <= y <= hi) (calculate_ema prices period).
Proof.
  intros Hp Hx. unfold calculate_ema. split; [apply ewm_mean_length|].
  destruct Hx as [|x xs Hx1 Hxs]; simpl; constructor; auto.
  apply ewm_from_between; auto using smoothing_factor_unit.
Qed.

(** X1 on the closes 1 to 15 with period 7. *)
Lemma calculate_ema_between_witness :
  List.length (calculate_ema rising_prices 7) = List.length rising_prices /\
  Forall (fun y => 1 <= y <= 15) (calculate_ema rising_prices 7).
Proof.
  apply (calculate_ema_between rising_prices 7 1 15).
  - lia.
  - repeat constructor; vm_compute; congruence.
Defined.

(* ------------------------------------------------------------------ *)
(** ** RSI in closed form, MACD, ATR and trend *)
(* ------------------------------------------------------------------ *)



Lemma iloc_last_ok {A : Type} (l : list A) :
  l <> [] -> exists x, iloc_last l = Ok x.
Proof.
  intros H. destruct (exists_last H) as (l' & x & ->).
  exists x. apply iloc_last_snoc.
Qed.

Lemma nonempty_of_length {A : Type} (l : list A) (n : nat) :
  (n < List.length l)%nat -> l <> [].
Proof. intros H E. rewrite E in H. simpl in H. lia. Qed.

Lemma calculate_macd_shape (prices : list Q) :
  exists m s h,
    calculate_macd prices =
      Ok (PyDict [("macd", PyNum (Fin m)); ("signal", PyNum (Fin s));
                  ("histogram", PyNum (Fin h));
                  ("bullish", PyBool (Qltb 0 h))]) /\
    h == m - s /\
    (Qltb 0 h = true <-> 0 < h) /\
    ((List.length prices < 26)%nat -> m = 0 /\ s = 0 /\ h = 0).
Proof.
  unfold calculate_macd.
  destruct (List.length prices <? 26)%nat eqn:Hlen.
  - exists 0, 0, 0. split; [reflexivity|]. split; [ring|].
    split; [apply Qltb_true | auto].
  - apply Nat.ltb_ge in Hlen.
    set (macd_line := zip_with Qminus (calculate_ema prices 12)
                        (calculate_ema prices 26)).
    assert (Hml : List.length macd_line = List.length prices).
    { subst macd_line. rewrite zip_with_length;
        unfold calculate_ema; rewrite !ewm_mean_length; reflexivity. }
    rewrite iloc_last_zip_with by now rewrite ewm_mean_length.
    destruct (iloc_last_ok macd_line) as (m & Hm).
    { apply (nonempty_of_length _ 0). lia. }
    destruct (iloc_last_ok (ewm_mean 9 macd_line)) as (s & Hs).
    { apply (nonempty_of_length _ 0). rewrite ewm_mean_length. lia. }
    rewrite Hm, Hs. cbn [bind].
    exists m, s, (m - s). split; [reflexivity|]. split; [ring|].
    split; [apply Qltb_true | lia].
Qed.

(** X4. calculate_atr never raises on a frame of finite bars: it returns
    a finite number that is not negative, and 0 when the frame has fewer
    than period+1 rows. *)
Theorem calculate_atr_total (df : list bar) (period : nat) :
  exists q,
    calculate_atr df period = Ok (Fin q) /\
    0 <= q /\
    ((List.length df < period + 1)%nat -> q = 0).
Proof.
  destruct (calculate_atr df period) as [r|e] eqn:H.
  - pose proof (calculate_atr_nonneg _ _ _ H) as Hn.
    destruct r as [q| | |]; simpl in Hn; try contradiction.
    exists q. split; [reflexivity|]. split; [assumption|].
    intros Hlen. unfold calculate_atr in H.
    apply Nat.ltb_lt in Hlen. rewrite Hlen in H. now injection H as <-.
  - exfalso. unfold calculate_atr in H.
    destruct (List.length df <? period + 1)%nat eqn:Hlen; [discriminate|].
    apply Nat.ltb_ge in Hlen.
    rewrite iloc_last_rolling_mean in H; [discriminate|].
    apply (nonempty_of_length _ 0). rewrite zip_with_length.
    + lia.
    + destruct df as [|b df]; [simpl in Hlen; lia|].
      cbn [map shift1 List.length]. rewrite length_map, removelast_length.
      cbn [List.length Nat.pred]. now rewrite length_map.
Qed.

Lemma lastn_length {A : Type} (n : nat) (l : list A) :
  (n <= List.length l)%nat -> List.length (lastn n l) = n.
Proof. intros H. unfold lastn. rewrite length_skipn. lia. Qed.

Lemma detect_trend_shape (prices : list Q) :
  exists label strength,
    detect_trend prices = Ok (trend_dict label (Fin strength)) /\
    (label = "bullish" \/ label = "bearish" \/ label = "neutral") /\
    0 <= strength <= 5 /\
    (label = "neutral" -> strength = 0) /\
    (label <> "neutral" -> 3 # 5 < strength) /\
    ((List.length prices < 10)%nat -> label = "neutral").
Proof.
  unfold detect_trend.
  destruct (List.length prices <? 10)%nat eqn:Hlen.
  { exists "neutral", 0. repeat split; auto; try lra; congruence. }
  apply Nat.ltb_ge in Hlen.
  assert (Hne : lastn 10 prices <> []).
  { apply (nonempty_of_length _ 0). rewrite lastn_length; lia. }
  destruct (iloc_last_ok _ Hne) as (last & ->).
  destruct (lastn 10 prices) as [|first rest]; [congruence|].
  cbn [iloc_first bind].
  set (change_pct := nmul (ndiv (Fin (last - first)) (Fin first)) (Fin 100)).
  assert (Hstrength : forall c, nlt (Fin 3) c = true \/ nlt c (Fin (-3)) = true ->
            exists q, py_min (ndiv (nabs c) (Fin 5)) (Fin 5) = Fin q /\
                      3 # 5 < q <= 5).
  { intros c Hc. unfold py_min.
    destruct c as [x| | |]; cbn [nlt] in Hc.
    - assert (3 < Qabs x).
      { destruct Hc as [Hc|Hc]; apply Qltb_true in Hc.
        + rewrite Qabs_pos; lra.
        + rewrite Qabs_neg; lra. }
      cbn [nabs]. rewrite ndiv_fin_nonzero by lra. cbn [nlt].
      destruct (Qltb 5 (Qabs x / 5)) eqn:E.
      + exists 5. split; [reflexivity|]. lra.
      + apply Qltb_false in E. eexists. split; [reflexivity|].
        split; [|assumption]. apply Qlt_shift_div_l; lra.
    - exists 5. split; [reflexivity|]. lra.
    - exists 5. split; [reflexivity|]. lra.
    - destruct Hc; discriminate. }
  destruct (nlt (Fin 3) change_pct) eqn:E1.
  - destruct (Hstrength change_pct (or_introl E1)) as (q & -> & Hq).
    exists "bullish", q. repeat split; auto; try lra; try congruence;
      try lia.
  - destruct (nlt change_pct (Fin (-3))) eqn:E2.
    + destruct (Hstrength change_pct (or_intror E2)) as (q & -> & Hq).
      exists "bearish", q. repeat split; auto; try lra; try congruence;
        try lia.
    + exists "neutral", 0. repeat split; auto; try lra; try congruence;
        try lia.
Qed.

(** X3. calculate_macd never raises. It returns a dict of three finite
    numbers macd, signal and histogram with histogram = macd - signal,
    and the flag bullish, which is true exactly when the histogram is
    positive; with fewer than 26 prices the three numbers are 0 and the
    flag is false. *)
Theorem calculate_macd_histogram (prices : list Q) :
  exists m s h,
    calculate_macd prices =
      Ok (PyDict [("macd", PyNum (Fin m)); ("signal", PyNum (Fin s));
                  ("histogram", PyNum (Fin h));
                  ("bullish", PyBool (Qltb 0 h))]) /\
    h == m - s /\
    (Qltb 0 h = true <-> 0 < h) /\
    ((List.length prices < 26)%nat -> m = 0 /\ s = 0 /\ h = 0).
Proof. exact (calculate_macd_shape prices). Qed.

(** X5. detect_trend never raises. Its trend is one of bullish, bearish
    and neutral and its strength lies in [0, 5]; a neutral trend has
    strength 0, any other trend a strength above 0.6; fewer than 10
    prices give neutral. *)
Theorem detect_trend_labels (prices : list Q) :
  exists label strength,
    detect_trend prices = Ok (trend_dict label (Fin strength)) /\
    (label = "bullish" \/ label = "bearish" \/ label = "neutral") /\
    0 <= strength <= 5 /\
    (label = "neutral" -> strength = 0) /\
    (label <> "neutral" -> 3 # 5 < strength) /\
    ((List.length prices < 10)%nat -> label = "neutral").
Proof. exact (detect_trend_shape prices). Qed.

(* ------------------------------------------------------------------ *)
(** ** What analyze_coin reads *)
(* ------------------------------------------------------------------ *)

Lemma DataFrame_inv (ohlc_data : pyval) (df : list bar) :
  DataFrame ohlc_data = Ok df ->
  exists rows, ohlc_data = PyList rows /\ to_bars rows = Ok df /\
               List.length df = List.length rows.
Proof.
  destruct ohlc_data as [| | | |rows|]; try discriminate.
  cbn [DataFrame]. intros H. exists rows. repeat split; auto.
  revert df H. induction rows as [|r rows IH]; intros df H.
  - injection H as <-. reflexivity.
  - cbn [to_bars] in H. inv_steps H. injection H as <-.
    simpl. f_equal. now apply IH.
Qed.

Lemma analyze_coin_try_facts (coin_data a : pyval) :
  analyze_coin_try coin_data = Ok (Some a) ->
  exists coin rows df symbol name current_price market_cap
         ema_7 ema_25 rsi macd atr trend macd_bullish macd_histogram
         trend_label trend_strength price volume atr_percent,
    coin_data = PyDict coin /\
    get_or coin "ohlc" (PyList []) = PyList rows /\
    (20 <= List.length rows)%nat /\
    to_bars rows = Ok df /\
    List.length df = List.length rows /\
    lookup "symbol" coin = Some symbol /\
    lookup "name" coin = Some name /\
    lookup "current_price" coin = Some current_price /\
    lookup "market_cap" coin = Some market_cap /\
    as_num current_price = Ok price /\
    as_num (get_or coin "total_volume" (PyNum (Fin 0))) = Ok volume /\
    iloc_last (calculate_ema (map bar_close df) 7) = Ok ema_7 /\
    iloc_last (calculate_ema (map bar_close df) 25) = Ok ema_25 /\
    calculate_rsi (map bar_close df) 14 = Ok rsi /\
    calculate_macd (map bar_close df) = Ok macd /\
    getitem macd "bullish" = Ok macd_bullish /\
    getitem macd "histogram" = Ok macd_histogram /\
    calculate_atr df 14 = Ok atr /\
    detect_trend (map bar_close df) = Ok trend /\
    getitem trend "trend" = Ok trend_label /\
    getitem trend "strength" = Ok trend_strength /\
    (if nlt (Fin 0) price
     then r <- py_truediv atr price ;; Ok (nmul r (Fin 100))
     else Ok (Fin 0)) = Ok atr_percent /\
    a = analysis_record symbol name current_price market_cap
          (get_or coin "total_volume" (PyNum (Fin 0)))
          ema_7 ema_25 rsi macd atr atr_percent
          (Qltb ema_25 ema_7)
          (nlt (Fin ema_7) price && Qltb ema_25 ema_7)
          (nle (Fin 35) rsi && nle rsi (Fin 70))
          (if truthy macd_bullish then "buy" else "sell")
          macd_histogram
          (nlt (Fin 10000000) volume)
          trend_label trend_strength
          (get_or coin "price_change_24h" (PyNum (Fin 0)))
          (get_or coin "price_change_7d" (PyNum (Fin 0))).
Proof.
  intros H. unfold analyze_coin_try in H.
  destruct coin_data as [| | | | |coin]; try discriminate.
  cbn [get_method bind] in H.
  destruct (negb (truthy (get_or coin "ohlc" (PyList [])))) eqn:Ht;
    [discriminate|].
  inv_steps H. injection H as <-.
  match goal with
  | Hd : DataFrame _ = Ok _ |- _ =>
      apply DataFrame_inv in Hd; destruct Hd as (rows & Hrows & Hbars & Hlen)
  end.
  rewrite Hrows in *.
  match goal with
  | Hl : py_len (PyList rows) = Ok ?n, Hc : (?n <? 20)%nat = false |- _ =>
      cbn [py_len] in Hl; injection Hl as <-; apply Nat.ltb_ge in Hc
  end.
  repeat match goal with
         | Hg : getitem (PyDict coin) ?k = Ok ?x |- _ =>
             cbn [getitem] in Hg;
             let E := fresh "L" in
             destruct (lookup k coin) eqn:E; [|discriminate Hg];
             injection Hg as ->
         end.
  exists coin, rows.
  repeat match goal with
         | |- exists _, _ => eexists
         end.
  repeat match goal with
         | |- _ /\ _ => split
         end; try eassumption; try reflexivity.
Qed.

(* ------------------------------------------------------------------ *)
(** ** Where analyze_coin raises, and what it copies *)
(* ------------------------------------------------------------------ *)





(* ------------------------------------------------------------------ *)
(** ** The signals of an analysis record *)
(* ------------------------------------------------------------------ *)

Ltac use_facts H :=
  apply analyze_coin_some, analyze_coin_try_facts in H;
  destruct H as (coin & rows & df & symbol & name & current_price
    & market_cap & ema_7 & ema_25 & rsi & macd & atr & trend & macd_bullish
    & macd_histogram & trend_label & trend_strength & price & volume
    & atr_percent & -> & Hohlc & Hlen & Hbars & Hdf & Hsym & Hname & Hcp
    & Hcap & Hprice & Hvol & He7 & He25 & Hrsi & Hmacd & Hmb & Hmh & Hatr
    & Htrend & Htl & Hts & Hpct & ->).



(** X9. In a record analyze_coin returns, macd_signal is 'buy' or
    'sell', and 'buy' exactly when macd_histogram is positive; trend is
    bullish, bearish or neutral, trend_strength lies in [0, 5] and is 0
    for a neutral trend. *)
Theorem analysis_technical_signals (coin_data a : pyval) :
  analyze_coin coin_data = Ok (Some a) ->
  exists sg macd_signal h label strength,
    getitem a "signals" = Ok sg /\
    getitem sg "macd_signal" = Ok (PyStr macd_signal) /\
    getitem sg "macd_histogram" = Ok (PyNum (Fin h)) /\
    (macd_signal = "buy" \/ macd_signal = "sell") /\
    (macd_signal = "buy" <-> 0 < h) /\
    getitem sg "trend" = Ok (PyStr label) /\
    getitem sg "trend_strength" = Ok (PyNum (Fin strength)) /\
    (label = "bullish" \/ label = "bearish" \/ label = "neutral") /\
    0 <= strength <= 5 /\
    (label = "neutral" -> strength = 0).
Proof.
  intros H. use_facts H.
  destruct (calculate_macd_shape (map bar_close df))
    as (m & s & h & Em & _ & Hb & _).
  rewrite Em in Hmacd. injection Hmacd as <-.
  cbn in Hmb, Hmh. injection Hmb as <-. injection Hmh as <-.
  destruct (detect_trend_shape (map bar_close df))
    as (label & strength & Et & Hl & [Hs0 Hs5] & Hn & _ & _).
  rewrite Et in Htrend. injection Htrend as <-.
  cbn in Htl, Hts. injection Htl as <-. injection Hts as <-.
  eexists. exists (if Qltb 0 h then "buy" else "sell"), h, label, strength.
  repeat match goal with
         | |- _ /\ _ => split
         end; try reflexivity; try assumption.
  - destruct (Qltb 0 h); auto.
  - cbn [truthy]. destruct (Qltb 0 h) eqn:E.
    + split; [intros _; now apply Hb | reflexivity].
    + split; [discriminate|]. intros Hh. apply Hb in Hh. discriminate.
Qed.

(** X9 on the record of the sample coin. *)
Lemma analysis_technical_signals_witness :
  exists sg macd_signal h,
    getitem sample_analysis "signals" = Ok sg /\
    getitem sg "macd_signal" = Ok (PyStr macd_signal) /\
    getitem sg "macd_histogram" = Ok (PyNum (Fin h)) /\
    (macd_signal = "buy" <-> 0 < h).
Proof.
  assert (Ha : analyze_coin (sample_coin "AAA" (PyNum (Fin 20000000000)))
               = Ok (Some sample_analysis)) by (vm_compute; reflexivity).
  destruct (analysis_technical_signals _ _ Ha)
    as (sg & ms & h & label & strength & H1 & H2 & H3 & _ & H4 & _).
  exists sg, ms, h. auto.
Defined.



(* ------------------------------------------------------------------ *)
(** ** What analyze_all returns *)
(* ------------------------------------------------------------------ *)

Lemma subseq_length {A : Type} (l1 l2 : list A) :
  subseq l1 l2 -> (List.length l1 <= List.length l2)%nat.
Proof. induction 1; simpl; lia. Qed.

Lemma subseq_In {A : Type} (l1 l2 : list A) (x : A) :
  subseq l1 l2 -> In x l1 -> In x l2.
Proof.
  induction 1 as [|y l1 l2 _ IH|y l1 l2 _ IH]; simpl; intros Hx; auto.
  destruct Hx; auto.
Qed.

Lemma analyze_each_spec (coins : list pyval) :
  forall analyzed_coins out,
    analyze_each coins analyzed_coins = Ok out ->
    exists sources records,
      out = analyzed_coins ++ records /\
      subseq sources coins /\
      Forall2 analyzed_from sources records.
Proof.
  induction coins as [|c coins IH]; intros acc out H.
  - injection H as <-. exists [], []. rewrite app_nil_r.
    repeat split; constructor.
  - cbn [analyze_each] in H. inv_steps H.
    match goal with Hc : analyze_coin c = Ok ?r |- _ => destruct r as [a|] end.
    + destruct (truthy a).
      * apply IH in H. destruct H as (src & recs & -> & Hsub & Hall).
        exists (c :: src), (a :: recs). rewrite <- app_assoc.
        repeat split; [now constructor|]. now constructor.
      * apply IH in H. destruct H as (src & recs & -> & Hsub & Hall).
        exists src, recs. repeat split; [now constructor | assumption].
    + apply IH in H. destruct H as (src & recs & -> & Hsub & Hall).
      exists src, recs. repeat split; [now constructor | assumption].
Qed.

Lemma analyze_all_inv (now : string) (crypto_data technical_data : pyval) :
  analyze_all now crypto_data = Ok technical_data ->
  exists batch items coins sources records,
    crypto_data = PyDict batch /\
    lookup "coins" batch = Some items /\
    py_iter items = Ok coins /\
    technical_data =
      PyDict [("timestamp", PyStr now);
              ("market_context", get_or batch "market_context" (PyDict []));
              ("analyzed_coins", PyList records)] /\
    subseq sources coins /\
    Forall2 analyzed_from sources records /\
    (List.length records <= List.length coins)%nat.
Proof.
  intros H. unfold analyze_all in H. inv_steps H. injection H as <-.
  destruct crypto_data as [| | | | |batch]; try discriminate.
  match goal with
  | Hg : getitem (PyDict batch) "coins" = Ok ?x |- _ =>
      cbn [getitem] in Hg;
      destruct (lookup "coins" batch) as [items|] eqn:Hl; [|discriminate Hg];
      injection Hg as <-
  end.
  match goal with
  | Hm : get_method (PyDict batch) = Ok ?d |- _ => injection Hm as <-
  end.
  match goal with
  | He : analyze_each _ [] = Ok _ |- _ =>
      apply analyze_each_spec in He;
      destruct He as (src & recs & -> & Hsub & Hall)
  end.
  exists batch, items. do 2 eexists. exists recs.
  repeat split; try eassumption; try reflexivity.
  apply Forall2_length in Hall. apply subseq_length in Hsub. lia.
Qed.

(** X11. When analyze_all returns, its input is a dict with an iterable
    under 'coins'; the result holds the timestamp, the input's
    market_context ({} when absent) and under analyzed_coins the records
    analyze_coin returned, in the order of the coins they come from, so
    never more records than coins. *)
Theorem analyze_all_result (now : string) (crypto_data technical_data : pyval) :
  analyze_all now crypto_data = Ok technical_data ->
  exists batch items coins sources records,
    crypto_data = PyDict batch /\
    lookup "coins" batch = Some items /\
    py_iter items = Ok coins /\
    technical_data =
      PyDict [("timestamp", PyStr now);
              ("market_context", get_or batch "market_context" (PyDict []));
              ("analyzed_coins", PyList records)] /\
    subseq sources coins /\
    Forall2 analyzed_from sources records /\
    (List.length records <= List.length coins)%nat.
Proof. exact (analyze_all_inv now crypto_data technical_data). Qed.

(** X11 on a batch of the sample coin and a coin without rows. *)
Lemma analyze_all_result_witness :
  exists records,
    analyze_all "now"
      (PyDict [("coins",
                PyList [sample_coin "AAA" (PyNum (Fin 20000000000));
                        PyDict [("symbol", PyStr "NEW")]])])
    = Ok (PyDict [("timestamp", PyStr "now");
                  ("market_context", PyDict []);
                  ("analyzed_coins", PyList records)]) /\
    (List.length records <= 2)%nat.
Proof.
  destruct (analyze_all "now"
      (PyDict [("coins",
                PyList [sample_coin "AAA" (PyNum (Fin 20000000000));
                        PyDict [("symbol", PyStr "NEW")]])]))
    as [td|e] eqn:H; [|vm_compute in H; discriminate H].
  destruct (analyze_all_result _ _ _ H)
    as (batch & items & coins & src & recs & Hb & Hl & Hi & -> & _ & _ & Hn).
  injection Hb as <-. cbn in Hl. injection Hl as <-.
  cbn in Hi. injection Hi as <-.
  exists recs. split; [reflexivity | exact Hn].
Defined.

(** X12. analyze_all raises KeyError('coins') on a dict without the key
    'coins', and TypeError on an input that is not a dict or whose
    'coins' cannot be iterated: the batch level has no handler. *)
Theorem analyze_all_rejects_malformed_batch (now : string) :
  (forall batch, lookup "coins" batch = None ->
     analyze_all now (PyDict batch) = Raise (KeyError "coins")) /\
  (forall crypto_data, is_dict crypto_data = false ->
     analyze_all now crypto_data = Raise TypeError) /\
  (forall batch items, lookup "coins" batch = Some items ->
     py_iter items = Raise TypeError ->
     analyze_all now (PyDict batch) = Raise TypeError).
Proof.
  repeat split.
  - intros batch H. unfold analyze_all. cbn [getitem]. now rewrite H.
  - intros c H. destruct c; try discriminate; reflexivity.
  - intros batch items H Hi. unfold analyze_all. cbn [getitem].
    rewrite H. cbn [bind]. now rewrite Hi.
Qed.

(** ** The market-cap multiplier *)

Lemma Qle_bool_true (a b : Q) : Qle_bool a b = true <-> a <= b.
Proof. apply Qle_bool_iff. Qed.

Lemma Qltb_cases (a b : Q) :
  (Qltb a b = true /\ a < b) \/ (Qltb a b = false /\ b <= a).
Proof.
  destruct (Qltb a b) eqn:E.
  - left. split; [reflexivity | now apply Qltb_true].
  - right. split; [reflexivity | now apply Qltb_false].
Qed.

Lemma market_cap_multiplier_fin (a : Q) :
  exists m,
    market_cap_multiplier (PyNum (Fin a)) = Ok (Fin m) /\
    ((10000000000 < a /\ m = 1.1) \/
     (1000000000 < a <= 10000000000 /\ m = 1.0) \/
     (100000000 < a <= 1000000000 /\ m = 0.95) \/
     (a <= 100000000 /\ m = 0.0)).
Proof.
  unfold market_cap_multiplier. cbn [as_num bind nlt].
  destruct (Qltb_cases 10000000000 a) as [[-> H1]|[-> H1]];
    [eexists; split; [reflexivity|]; left; now split|].
  destruct (Qltb_cases 1000000000 a) as [[-> H2]|[-> H2]];
    [eexists; split; [reflexivity|]; right; left; now repeat split|].
  destruct (Qltb_cases 100000000 a) as [[-> H3]|[-> H3]];
    eexists; (split; [reflexivity|]); right; right;
    [left | right]; now repeat split.
Qed.

(** X13. market_cap_multiplier never decreases when the market cap
    grows, and every multiplier lies in [0, 1.1]. *)
Theorem market_cap_multiplier_monotone (c1 c2 : number) :
  nle c1 c2 = true ->
  exists m1 m2,
    market_cap_multiplier (PyNum c1) = Ok (Fin m1) /\
    market_cap_multiplier (PyNum c2) = Ok (Fin m2) /\
    0 <= m1 /\ m1 <= m2 /\ m2 <= 1.1.
Proof.
  intros H.
  destruct c1 as [a| | |], c2 as [b| | |]; simpl in H; try discriminate H.
  - apply Qle_bool_true in H.
    destruct (market_cap_multiplier_fin a) as (m1 & -> & Ha).
    destruct (market_cap_multiplier_fin b) as (m2 & -> & Hb).
    exists m1, m2. split; [reflexivity|]. split; [reflexivity|].
    destruct Ha as [[Ha ->]|[[Ha ->]|[[Ha ->]|[Ha ->]]]];
    destruct Hb as [[Hb ->]|[[Hb ->]|[[Hb ->]|[Hb ->]]]];
    repeat split; lra.
  - destruct (market_cap_multiplier_fin a) as (m1 & -> & Ha).
    exists m1, 1.1. split; [reflexivity|]. split; [reflexivity|].
    destruct Ha as [[Ha ->]|[[Ha ->]|[[Ha ->]|[Ha ->]]]]; repeat split; lra.
  - exists 1.1, 1.1. repeat split; lra.
  - destruct (market_cap_multiplier_fin b) as (m2 & -> & Hb).
    exists 0.0, m2. split; [reflexivity|]. split; [reflexivity|].
    destruct Hb as [[Hb ->]|[[Hb ->]|[[Hb ->]|[Hb ->]]]]; repeat split; lra.
  - exists 0.0, 1.1. repeat split; lra.
  - exists 0.0, 0.0. repeat split; lra.
Qed.

(** X13 at the caps 500 million and 20 billion. *)
Lemma market_cap_multiplier_monotone_witness :
  exists m1 m2,
    market_cap_multiplier (PyNum (Fin 500000000)) = Ok (Fin m1) /\
    market_cap_multiplier (PyNum (Fin 20000000000)) = Ok (Fin m2) /\
    0 <= m1 /\ m1 <= m2 /\ m2 <= 1.1.
Proof.
  apply (market_cap_multiplier_monotone (Fin 500000000) (Fin 20000000000)).
  reflexivity.
Defined.

(** ** Scores at and below the market-cap floor *)

Lemma market_cap_multiplier_floor (v : pyval) (cap : number) :
  as_num v = Ok cap ->
  nlt (Fin 100000000) cap = false ->
  market_cap_multiplier v = Ok (Fin 0.0).
Proof.
  intros Hv H. unfold market_cap_multiplier. rewrite Hv. cbn [bind].
  destruct cap as [c| | |]; cbn [nlt] in *; try discriminate H;
    try reflexivity.
  apply Qltb_false in H.
  destruct (Qltb_cases 10000000000 c) as [[-> H1]|[-> H1]]; [lra|].
  destruct (Qltb_cases 1000000000 c) as [[-> H2]|[-> H2]]; [lra|].
  destruct (Qltb_cases 100000000 c) as [[-> H3]|[-> H3]]; [lra|].
  reflexivity.
Qed.

Lemma risk_of_cases (atr_pct : number) :
  (exists r, risk_of atr_pct = Fin r /\ 0 <= r) \/
  (atr_pct = NInf /\ risk_of atr_pct = PInf).
Proof.
  destruct atr_pct as [q| | |].
  - left. unfold risk_of, py_max. cbn [nmul nsub nneg nadd nlt].
    destruct (Qltb_cases 0 (10 + - (q * 1.2))) as [[-> H]|[-> H]];
      eexists; split; try reflexivity; lra.
  - left. exists 0. split; [reflexivity | lra].
  - right. split; reflexivity.
  - left. exists 0. split; [reflexivity | lra].
Qed.

Lemma calculate_score_floor (analysis v : pyval) (cap : number) (s : scores) :
  calculate_score analysis = Ok s ->
  getitem analysis "market_cap" = Ok v ->
  as_num v = Ok cap ->
  nlt (Fin 100000000) cap = false ->
  s_final_score s =n= Fin 0 \/
  (atr_pct_of analysis = Ok NInf /\ s_final_score s = NaN).
Proof.
  intros H Hv Hc Hlow. apply calculate_score_inv in H.
  destruct H as (a1 & a2 & a3 & b1 & b2 & c1 & c2 & c3 & atr_pct & mult
                 & cap' & Hatr & Hcap & Hmult & Hs).
  rewrite Hv in Hcap. injection Hcap as <-.
  rewrite (market_cap_multiplier_floor _ _ Hc Hlow) in Hmult.
  injection Hmult as <-.
  destruct (momentum_of_cases a1 a2 a3) as (m & Em & _).
  destruct (volume_of_cases b1 b2) as (vo & Ev & _).
  destruct (technical_of_cases c1 c2 c3) as (t & Et & _).
  cbv zeta in Hs. rewrite Em, Ev, Et in Hs. subst s.
  cbn [s_final_score]. unfold blend. cbn [nmul nadd].
  destruct (risk_of_cases atr_pct) as [(r & -> & _)|[-> ->]].
  - left. cbn [nmul nadd py_round neq].
    apply (round2_of_eq 0). change (inject_Z 0) with 0. lra.
  - right. split; [assumption | reflexivity].
Qed.



(** ** The values the sub-scores take *)

Ltac pick_value :=
  repeat match goal with
         | |- _ \/ _ => (left; reflexivity) || right
         end;
  reflexivity.

(** X15. Whatever the record, the momentum score calculate_score returns
    is one of 2, 4, 6, 8, 10, the volume score one of 4, 7, 10 and the
    technical score one of 3, 5, 6, 7, 8, 10: none of the three can
    reach 0. *)
Theorem calculate_score_subscore_values (analysis : pyval) (s : scores) :
  calculate_score analysis = Ok s ->
  (s_momentum_score s =n= Fin 2 \/ s_momentum_score s =n= Fin 4 \/
   s_momentum_score s =n= Fin 6 \/ s_momentum_score s =n= Fin 8 \/
   s_momentum_score s =n= Fin 10) /\
  (s_volume_score s =n= Fin 4 \/ s_volume_score s =n= Fin 7 \/
   s_volume_score s =n= Fin 10) /\
  (s_technical_score s =n= Fin 3 \/ s_technical_score s =n= Fin 5 \/
   s_technical_score s =n= Fin 6 \/ s_technical_score s =n= Fin 7 \/
   s_technical_score s =n= Fin 8 \/ s_technical_score s =n= Fin 10).
Proof.
  intros H. apply calculate_score_inv in H.
  destruct H as (a1 & a2 & a3 & b1 & b2 & c1 & c2 & c3 & atr_pct & mult
                 & cap' & _ & _ & _ & Hs).
  cbv zeta in Hs. subst s.
  cbn [s_momentum_score s_volume_score s_technical_score].
  split; [|split].
  - destruct a1, a2, a3; vm_compute; pick_value.
  - destruct b1, b2; vm_compute; pick_value.
  - destruct c1, c2, c3; vm_compute; pick_value.
Qed.

(** X15 on a sample record. *)
Lemma calculate_score_subscore_values_witness :
  exists s,
    calculate_score (sample_record "ONE" 20000000000 2) = Ok s /\
    (s_momentum_score s =n= Fin 2 \/ s_momentum_score s =n= Fin 4 \/
     s_momentum_score s =n= Fin 6 \/ s_momentum_score s =n= Fin 8 \/
     s_momentum_score s =n= Fin 10) /\
    (s_volume_score s =n= Fin 4 \/ s_volume_score s =n= Fin 7 \/
     s_volume_score s =n= Fin 10) /\
    (s_technical_score s =n= Fin 3 \/ s_technical_score s =n= Fin 5 \/
     s_technical_score s =n= Fin 6 \/ s_technical_score s =n= Fin 7 \/
     s_technical_score s =n= Fin 8 \/ s_technical_score s =n= Fin 10).
Proof.
  destruct (calculate_score (sample_record "ONE" 20000000000 2))
    as [s|e] eqn:H; [|vm_compute in H; discriminate H].
  exists s. split; [reflexivity|].
  exact (calculate_score_subscore_values _ s H).
Defined.

(* ------------------------------------------------------------------ *)
(** ** Signals and the records they come from *)
(* ------------------------------------------------------------------ *)

Section Provenance.

Variable str_other : pyval -> string.
Variable clock : nat -> string.

Lemma build_signal_facts (a : pyval) (n : nat) (s : CryptoSignal) :
  build_signal str_other clock a n = Ok (Some s) -> derived_from a s.
Proof.
  intros H. unfold build_signal in H. inv_steps H.
  injection H as <-.
  repeat match goal with
         | H1 : getitem a ?k = Ok ?x, H2 : getitem a ?k = Ok ?y |- _ =>
             rewrite H1 in H2; injection H2 as <-
         end.
  unfold derived_from.
  cbn [price symbol name market_cap volume_24h signals technical_score
       momentum_score volume_score risk_score final_score entry_zone
       stop_loss target_1 target_2].
  do 3 eexists. repeat split; try eassumption; reflexivity.
Qed.

Lemma built_In (P : pyval -> CryptoSignal -> Prop) qualifying coins signals :
  (forall a n s, build_signal str_other clock a n = Ok (Some s) -> P a s) ->
  subseq qualifying coins ->
  Forall2 (built str_other clock) qualifying signals ->
  Forall (fun s => exists a, In a coins /\ P a s) signals.
Proof.
  intros HP Hsub H.
  assert (Hq : Forall (fun s => exists a, In a qualifying /\ P a s) signals).
  { clear Hsub. induction H as [|a s qs sigs [n Hb] _ IH]; constructor.
    - exists a. split; [now left | eauto].
    - eapply Forall_impl; [|exact IH].
      intros s' (a' & Hin & Hp). exists a'. split; [now right | assumption]. }
  eapply Forall_impl; [|exact Hq].
  intros s (a & Hin & Hp). exists a. split; [|assumption].
  eapply subseq_In; eassumption.
Qed.

Lemma select_top_from (P : pyval -> CryptoSignal -> Prop)
    (technical_data : pyval) (top : list CryptoSignal) :
  (forall a n s, build_signal str_other clock a n = Ok (Some s) -> P a s) ->
  select_top_opportunities str_other clock technical_data = Ok top ->
  exists items coins,
    getitem technical_data "analyzed_coins" = Ok items /\
    py_iter items = Ok coins /\
    Forall (fun s => exists a, In a coins /\ P a s) top.
Proof.
  intros HP H. apply select_top_inv in H.
  destruct H as (items & coins & sc & Hitems & Hiter & Hsc & ->).
  apply score_each_spec in Hsc.
  destruct Hsc as (qs & sigs & Hout & Hsub & Hbuilt).
  cbn [app] in Hout. subst sc.
  exists items, coins. repeat split; try assumption.
  apply Forall_take, sort_desc_Forall. eapply built_In; eassumption.
Qed.

(** X18. Every signal select_top_opportunities returns is built from one
    record of analyzed_coins: it carries that record's symbol, name,
    price, market_cap, volume_24h and signals, the five scores
    calculate_score gives for the record, and the levels
    calculate_levels gives for the record's price. *)
Theorem signals_derive_from_records
    (technical_data : pyval) (top : list CryptoSignal) :
  select_top_opportunities str_other clock technical_data = Ok top ->
  exists items coins,
    getitem technical_data "analyzed_coins" = Ok items /\
    py_iter items = Ok coins /\
    Forall (fun s => exists a, In a coins /\ derived_from a s) top.
Proof. apply select_top_from. exact build_signal_facts. Qed.

Lemma above_floor (a : pyval) (n : nat) (s : CryptoSignal) :
  build_signal str_other clock a n = Ok (Some s) ->
  notna (final_score s) = true ->
  exists c, as_num (market_cap s) = Ok c /\
            nlt (Fin 100000000) c = true.
Proof.
  intros Hb Hn.
  pose proof (build_signal_facts _ _ _ Hb)
    as (sc & lv & atr & Hsc & _ & _ & _ & _ & Hcap & _ & _ & _ & _ & _ & _
        & Hf & _).
  apply build_signal_inv in Hb.
  destruct Hb as ((c & Hc & _) & Hmin & _).
  exists c. split; [assumption|].
  destruct (nlt (Fin 100000000) c) eqn:E; [reflexivity|].
  destruct (calculate_score_floor _ _ _ _ Hsc Hcap Hc E) as [Hz|[_ Hz]];
    rewrite <- Hf in Hz.
  - destruct (final_score s) as [q| | |]; simpl in Hz; try contradiction.
    simpl in Hmin. apply Qltb_false in Hmin. lra.
  - rewrite Hz in Hn. discriminate Hn.
Qed.

(** X19. Every signal select_top_opportunities returns whose final score
    is not NaN has a market cap strictly above 100,000,000: a cap of
    exactly 100,000,000 passes the filter of the loop but gets the
    multiplier 0, and its score 0 is below the threshold. *)
Theorem selected_strictly_above_floor
    (technical_data : pyval) (top : list CryptoSignal) :
  select_top_opportunities str_other clock technical_data = Ok top ->
  Forall (fun s => notna (final_score s) = true ->
                   exists c, as_num (market_cap s) = Ok c /\
                             nlt (Fin 100000000) c = true) top.
Proof.
  intros H.
  destruct (select_top_from (fun _ s =>
              notna (final_score s) = true ->
              exists c, as_num (market_cap s) = Ok c /\
                        nlt (Fin 100000000) c = true) _ _ above_floor H)
    as (items & coins & _ & _ & Hall).
  eapply Forall_impl; [|exact Hall]. intros s (a & _ & Hp). exact Hp.
Qed.

End Provenance.

(** X18 on the sample batch. *)
Lemma signals_derive_from_records_witness :
  exists items coins,
    getitem sample_batch "analyzed_coins" = Ok items /\
    py_iter items = Ok coins /\
    Forall (fun s => exists a, In a coins /\ derived_from a s) sample_top.
Proof.
  apply (signals_derive_from_records no_text fixed_clock sample_batch).
  vm_compute. reflexivity.
Defined.

(** X19 on the sample batch. *)
Lemma selected_strictly_above_floor_witness :
  Forall (fun s => notna (final_score s) = true ->
                   exists c, as_num (market_cap s) = Ok c /\
                             nlt (Fin 100000000) c = true) sample_top.
Proof.
  apply (selected_strictly_above_floor no_text fixed_clock sample_batch).
  vm_compute. reflexivity.
Defined.

(* ------------------------------------------------------------------ *)
(** ** The selection as a whole *)
(* ------------------------------------------------------------------ *)

Lemma insert_desc_perm x l : Permutation (insert_desc x l) (x :: l).
Proof.
  induction l as [|y l IH]; simpl; [reflexivity|].
  destruct (nlt (final_score x) (final_score y)); [|reflexivity].
  rewrite IH. apply perm_swap.
Qed.

Lemma sort_desc_perm l : Permutation (sort_desc l) l.
Proof.
  induction l as [|x l IH]; simpl; [reflexivity|].
  rewrite insert_desc_perm. now constructor.
Qed.

Lemma strongly_sorted_split {A : Type} (R : A -> A -> Prop) (l1 l2 : list A) :
  StronglySorted R (l1 ++ l2) -> Forall (fun a => Forall (R a) l2) l1.
Proof.
  induction l1 as [|a l1 IH]; simpl; intros H; [constructor|].
  inversion H as [|? ? Hs Ha]; subst. constructor; [|now apply IH].
  apply Forall_app in Ha. tauto.
Qed.

Lemma chars_length (s : string) : List.length (chars s) = String.length s.
Proof. induction s; simpl; congruence. Qed.

Lemma py_len_of_iter (v : pyval) (items : list pyval) :
  py_iter v = Ok items -> py_len v = Ok (List.length items).
Proof.
  destruct v; simpl; try discriminate; intros H; injection H as <-.
  - now rewrite chars_length.
  - reflexivity.
  - now rewrite length_map.
Qed.

Lemma py_len_iter (v : pyval) (items : list pyval) (n : nat) :
  py_iter v = Ok items -> py_len v = Ok n -> n = List.length items.
Proof.
  intros H1 H2. rewrite (py_len_of_iter _ _ H1) in H2. congruence.
Qed.

Section Selected.

Variable str_other : pyval -> string.
Variable clock : nat -> string.

Lemma score_each_length (coins : list pyval) :
  forall scored_coins out,
    score_each str_other clock coins scored_coins = Ok out ->
    (List.length out <= List.length scored_coins + List.length coins)%nat.
Proof.
  induction coins as [|a coins IH]; intros acc out H.
  - injection H as <-. simpl. lia.
  - cbn [score_each] in H. inv_steps H. destruct v as [s|];
      apply IH in H; rewrite ?length_app in H; simpl in *; lia.
Qed.

Lemma selection_result_inv (technical_data : pyval) (r : run_result) :
  selection_result str_other clock technical_data = Ok r ->
  exists d items coins scored_coins,
    technical_data = PyDict d /\
    lookup "analyzed_coins" d = Some items /\
    py_iter items = Ok coins /\
    score_each str_other clock coins [] = Ok scored_coins /\
    r = mk_result (clock (List.length scored_coins))
          (get_or d "market_context" (PyDict []))
          (List.length coins) (List.length scored_coins)
          (firstn 10 (sort_desc scored_coins)).
Proof.
  intros H. unfold selection_result in H. inv_steps H. injection H as <-.
  match goal with
  | Hs : scored _ _ _ = Ok _ |- _ => unfold scored in Hs; inv_steps Hs
  end.
  destruct technical_data as [| | | | |d]; try discriminate.
  repeat match goal with
         | H1 : getitem ?a ?k = Ok ?x, H2 : getitem ?a ?k = Ok ?y |- _ =>
             rewrite H1 in H2; injection H2 as <-
         end.
  match goal with
  | Hm : get_method (PyDict d) = Ok _ |- _ => injection Hm as <-
  end.
  match goal with
  | Hg : getitem (PyDict d) "analyzed_coins" = Ok ?x |- _ =>
      cbn [getitem] in Hg;
      destruct (lookup "analyzed_coins" d) as [items|] eqn:Hl;
        [|discriminate Hg];
      injection Hg as <-
  end.
  match goal with
  | Hi : py_iter items = Ok ?c, Hn : py_len items = Ok ?n |- _ =>
      rewrite (py_len_iter _ _ _ Hi Hn)
  end.
  rewrite (Permutation_length (sort_desc_perm _)).
  do 4 eexists. repeat split; try eassumption; reflexivity.
Qed.

(** X20. In the result dict select_top_opportunities writes,
    top_opportunities is the list it returns, total_analyzed is the
    length of analyzed_coins, total_qualified <= total_analyzed, the
    list has min(10, total_qualified) signals, and market_context is the
    input's ({} when absent). *)
Theorem selection_result_counts (technical_data : pyval) (r : run_result) :
  selection_result str_other clock technical_data = Ok r ->
  select_top_opportunities str_other clock technical_data
    = Ok (r_top_opportunities r) /\
  (r_total_qualified r <= r_total_analyzed r)%nat /\
  List.length (r_top_opportunities r) = Nat.min 10 (r_total_qualified r) /\
  exists d items,
    technical_data = PyDict d /\
    lookup "analyzed_coins" d = Some items /\
    py_len items = Ok (r_total_analyzed r) /\
    r_market_context r = get_or d "market_context" (PyDict []).
Proof.
  intros H. split.
  { unfold select_top_opportunities. now rewrite H. }
  apply selection_result_inv in H.
  destruct H as (d & items & coins & sc & -> & Hl & Hi & Hs & ->).
  cbn [r_total_qualified r_total_analyzed r_top_opportunities
       r_market_context].
  split; [apply score_each_length in Hs; simpl in Hs; lia|].
  split.
  { rewrite length_firstn, (Permutation_length (sort_desc_perm _)).
    reflexivity. }
  exists d, items. repeat split; try assumption.
  now apply py_len_of_iter.
Qed.

(** X21. The list select_top_opportunities returns and the qualifying
    signals it drops are together a rearrangement of all qualifying
    signals; it has min(10, number of qualifying signals) entries; and
    when no score is NaN, no dropped signal has a score above that of a
    returned one. *)
Theorem top_opportunities_are_the_best
    (technical_data : pyval) (top : list CryptoSignal) :
  select_top_opportunities str_other clock technical_data = Ok top ->
  exists scored_coins dropped,
    scored str_other clock technical_data = Ok scored_coins /\
    Permutation (top ++ dropped) scored_coins /\
    List.length top = Nat.min 10 (List.length scored_coins) /\
    (Forall (fun s => notna (final_score s) = true) scored_coins ->
     Forall (fun s => Forall (not_below s) dropped) top).
Proof.
  intros H. apply select_top_inv in H.
  destruct H as (items & coins & sc & Hitems & Hiter & Hsc & ->).
  exists sc, (skipn 10 (sort_desc sc)).
  split; [unfold scored; rewrite Hitems; cbn [bind]; rewrite Hiter;
          exact Hsc|].
  split; [rewrite firstn_skipn; apply sort_desc_perm|].
  split.
  { rewrite length_firstn, (Permutation_length (sort_desc_perm _)).
    reflexivity. }
  intros Hn. apply strongly_sorted_split. rewrite firstn_skipn.
  apply sorted_strongly; [|apply sort_desc_sorted].
  now apply sort_desc_Forall.
Qed.

Lemma score_each_aborts (before after : list pyval) (a : pyval) (e : exn) :
  forall scored_coins mid,
    score_each str_other clock before scored_coins = Ok mid ->
    build_signal str_other clock a (List.length mid) = Raise e ->
    score_each str_other clock (before ++ a :: after) scored_coins = Raise e.
Proof.
  induction before as [|b before IH]; intros acc mid H Hb.
  - injection H as <-. cbn [app score_each]. now rewrite Hb.
  - cbn [app score_each] in *.
    destruct (build_signal str_other clock b (List.length acc)) as [r|e'];
      [|discriminate H].
    cbn [bind] in *. destruct r as [s|]; eapply IH; eassumption.
Qed.

(** X22. select_top_opportunities has no handler around its loop: if the
    records before some record are processed and that record makes the
    loop body raise, the whole call raises that exception and no result
    is produced, whatever follows in the list. *)
Theorem selection_aborts_on_first_failure
    (d : list (string * pyval)) (before after : list pyval) (a : pyval)
    (e : exn) (mid : list CryptoSignal) :
  lookup "analyzed_coins" d = Some (PyList (before ++ a :: after)) ->
  score_each str_other clock before [] = Ok mid ->
  build_signal str_other clock a (List.length mid) = Raise e ->
  select_top_opportunities str_other clock (PyDict d) = Raise e /\
  selection_result str_other clock (PyDict d) = Raise e.
Proof.
  intros Hl Hs Hb.
  assert (Hr : selection_result str_other clock (PyDict d) = Raise e).
  { unfold selection_result, scored. cbn [getitem]. rewrite Hl.
    cbn [bind py_iter].
    now rewrite (score_each_aborts before after a e [] mid Hs Hb). }
  split; [|exact Hr].
  unfold select_top_opportunities. now rewrite Hr.
Qed.

(** X23. select_top_opportunities raises KeyError('analyzed_coins') on a
    dict without that key, and TypeError on an input that is not a dict
    or whose analyzed_coins cannot be iterated. *)
Theorem select_rejects_malformed_input :
  (forall d, lookup "analyzed_coins" d = None ->
     select_top_opportunities str_other clock (PyDict d)
       = Raise (KeyError "analyzed_coins")) /\
  (forall technical_data, is_dict technical_data = false ->
     select_top_opportunities str_other clock technical_data
       = Raise TypeError) /\
  (forall d items, lookup "analyzed_coins" d = Some items ->
     py_iter items = Raise TypeError ->
     select_top_opportunities str_other clock (PyDict d) = Raise TypeError).
Proof.
  repeat split.
  - intros d H. unfold select_top_opportunities, selection_result, scored.
    cbn [getitem]. now rewrite H.
  - intros td H. destruct td; try discriminate; reflexivity.
  - intros d items H Hi.
    unfold select_top_opportunities, selection_result, scored.
    cbn [getitem]. rewrite H. cbn [bind]. now rewrite Hi.
Qed.

End Selected.

(** X20 on the sample batch. *)
Lemma selection_result_counts_witness :
  exists r,
    selection_result no_text fixed_clock sample_batch = Ok r /\
    select_top_opportunities no_text fixed_clock sample_batch
      = Ok (r_top_opportunities r) /\
    (r_total_qualified r <= r_total_analyzed r)%nat /\
    List.length (r_top_opportunities r) = Nat.min 10 (r_total_qualified r).
Proof.
  destruct (selection_result no_text fixed_clock sample_batch)
    as [r|e] eqn:H; [|vm_compute in H; discriminate H].
  exists r. split; [reflexivity|].
  destruct (selection_result_counts no_text fixed_clock sample_batch r H)
    as (H1 & H2 & H3 & _).
  repeat split; assumption.
Defined.

(** X21 on the sample batch. *)
Lemma top_opportunities_are_the_best_witness :
  exists scored_coins dropped,
    scored no_text fixed_clock sample_batch = Ok scored_coins /\
    Permutation (sample_top ++ dropped) scored_coins /\
    List.length sample_top = Nat.min 10 (List.length scored_coins) /\
    (Forall (fun s => notna (final_score s) = true) scored_coins ->
     Forall (fun s => Forall (not_below s) dropped) sample_top).
Proof.
  apply (top_opportunities_are_the_best no_text fixed_clock sample_batch).
  vm_compute. reflexivity.
Defined.

(** X22 on a batch whose second record lacks market_cap. *)
Lemma selection_aborts_on_first_failure_witness :
  select_top_opportunities no_text fixed_clock
    (PyDict [("analyzed_coins",
              PyList ([sample_record "ONE" 20000000000 2] ++
                      bad_record :: [sample_record "TWO" 20000000000 2]))])
  = Raise (KeyError "market_cap") /\
  selection_result no_text fixed_clock
    (PyDict [("analyzed_coins",
              PyList ([sample_record "ONE" 20000000000 2] ++
                      bad_record :: [sample_record "TWO" 20000000000 2]))])
  = Raise (KeyError "market_cap").
Proof.
  eapply (selection_aborts_on_first_failure no_text fixed_clock
            [("analyzed_coins",
              PyList ([sample_record "ONE" 20000000000 2] ++
                      bad_record :: [sample_record "TWO" 20000000000 2]))]
            [sample_record "ONE" 20000000000 2]
            [sample_record "TWO" 20000000000 2] bad_record
            (KeyError "market_cap")
            (match score_each no_text fixed_clock
                     [sample_record "ONE" 20000000000 2] [] with
             | Ok out => out
             | Raise _ => []
             end)).
  - reflexivity.
  - vm_compute. reflexivity.
  - vm_compute. reflexivity.
Defined.

(** ** Rounding keeps the order *)






(** ** Price levels: order and edge cases *)




(* ------------------------------------------------------------------ *)
(** ** From coins to signals *)
(* ------------------------------------------------------------------ *)



Section Pipeline.

Variable str_other : pyval -> string.
Variable clock : nat -> string.


End Pipeline.


(* ------------------------------------------------------------------ *)
(** ** Alerts *)
(* ------------------------------------------------------------------ *)



Lemma zero_or_not (p : number) : p =n= Fin 0 \/ ~ p =n= Fin 0.
Proof.
  destruct p as [q| | |]; simpl; try (right; tauto).
  destruct (Qeq_dec q 0); auto.
Qed.

Section NotifierFacts.

Variable fmt : string -> number -> string.
Variable str_other : pyval -> string.
Variable str_int : nat -> string.
Variable strftime_now : string.
Variable delivered : string -> bool.
Variable dict_slice_error : exn.




End NotifierFacts.

(* ------------------------------------------------------------------ *)
(** ** Rendering a signal *)
(* ------------------------------------------------------------------ *)


Section Printing.

Variable fmt : string -> number -> string.
Variable str_other : pyval -> string.
Variable str_int : nat -> string.
Variable clock : nat -> string.




End Printing.


(* ------------------------------------------------------------------ *)
(** ** The report *)
(* ------------------------------------------------------------------ *)

Lemma and_then_ok {A B : Type} (m : sent A) (k : A -> sent B)
    (w : list string) (b : B) :
  and_then m k = (w, Ok b) ->
  exists w1 a w2, m = (w1, Ok a) /\ k a = (w2, Ok b) /\ w = w1 ++ w2.
Proof.
  unfold and_then. destruct m as [w1 [a|e]]; [|discriminate].
  destruct (k a) as [w2 r] eqn:E. intros H. injection H as <- ->.
  exists w1, a, w2. auto.
Qed.

Lemma lift_ok {A : Type} (r : res A) (w : list string) (a : A) :
  lift r = (w, Ok a) -> r = Ok a /\ w = [].
Proof. unfold lift. intros H. injection H as <- ->. auto. Qed.

Lemma done_ok {A : Type} (a b : A) (w : list string) :
  done a = (w, Ok b) -> a = b /\ w = [].
Proof. unfold done. intros H. injection H as <- ->. auto. Qed.

(** Inverting a call that sent its messages and returned. *)
Ltac inv_sent H :=
  repeat (cbv beta zeta in H;
          match type of H with
          | and_then (lift _) _ = (_, Ok _) =>
              let w1 := fresh "w" in
              let a := fresh "a" in
              let w2 := fresh "w" in
              let E := fresh "E" in
              let Ew := fresh "Ew" in
              apply and_then_ok in H;
              destruct H as (w1 & a & w2 & E & H & Ew);
              apply lift_ok in E; destruct E as [E ->];
              cbn [app] in Ew; subst
          | and_then _ _ = (_, Ok _) =>
              let w1 := fresh "w" in
              let a := fresh "a" in
              let w2 := fresh "w" in
              let E := fresh "E" in
              let Ew := fresh "Ew" in
              apply and_then_ok in H;
              destruct H as (w1 & a & w2 & E & H & Ew); subst
          end);
  cbv beta zeta in H.

Section Report.

Variable fmt : string -> number -> string.
Variable str_other : pyval -> string.
Variable str_int : nat -> string.
Variable strftime_now : string.
Variable delivered : string -> bool.
Variable dict_slice_error : exn.

Lemma send_message_ok (text : string) (w : list string) (b : bool) :
  send_message delivered text = (w, Ok b) -> w = [text].
Proof. unfold send_message. intros H. now injection H as <- _. Qed.

Lemma send_signals_ok (top : list pyval) :
  forall i w u,
    send_signals fmt str_other str_int delivered top i = (w, Ok u) ->
    List.length w = List.length top.
Proof.
  induction top as [|s top IH]; intros i w u H.
  - apply done_ok in H. destruct H as [_ ->]. reflexivity.
  - cbn [send_signals] in H. inv_sent H.
    apply send_message_ok in E0. subst. apply IH in H.
    cbn [app List.length]. now rewrite H.
Qed.

Lemma first_three_length (signals : pyval) (top : list pyval) (n : nat) :
  first_three dict_slice_error signals = Ok top ->
  py_len signals = Ok n ->
  List.length top = Nat.min 3 n.
Proof.
  destruct signals; cbn [first_three py_len]; try discriminate;
    intros H1 H2.
  - assert (Ht : top = firstn 3 (chars s)) by congruence.
    assert (Hn : n = String.length s) by congruence.
    subst. now rewrite length_firstn, chars_length.
  - assert (Ht : top = firstn 3 l) by congruence.
    assert (Hn : n = List.length l) by congruence.
    subst. now rewrite length_firstn.
Qed.

Lemma send_analysis_report_shape (data : pyval) (msgs : list string) :
  send_analysis_report fmt str_other str_int strftime_now delivered
    dict_slice_error data = (msgs, Ok tt) ->
  exists d header,
    data = PyDict d /\
    report_header fmt str_other strftime_now data
      (get_or d "market_context" (PyDict [])) = Ok header /\
    (truthy (get_or d "top_opportunities" (PyList [])) = false ->
     msgs = [header; no_opportunities]) /\
    (truthy (get_or d "top_opportunities" (PyList [])) = true ->
     exists n rest,
       py_len (get_or d "top_opportunities" (PyList [])) = Ok n /\
       msgs = header :: opportunities_heading :: rest /\
       List.length rest = (Nat.min 3 n + (if (3 <? n)%nat then 1 else 0))%nat).
Proof.
  intros H. unfold send_analysis_report in H.
  destruct data as [| | | | |d]; try discriminate H.
  cbn [get_method] in H. inv_sent H.
  repeat match goal with
         | Hd : Ok d = Ok _ |- _ => injection Hd as <-
         | Hm : send_message _ _ = (_, Ok _) |- _ =>
             apply send_message_ok in Hm; subst
         end.
  match goal with
  | Hh : report_header _ _ _ _ _ = Ok ?h |- _ => exists d, h
  end.
  split; [reflexivity|]. split; [assumption|].
  destruct (truthy (get_or d "top_opportunities" (PyList []))) eqn:Ht.
  - split; [discriminate|]. intros _. inv_sent H.
    repeat match goal with
           | Hm : send_message _ _ = (_, Ok _) |- _ =>
               apply send_message_ok in Hm; subst
           end.
    match goal with
    | Hs : send_signals _ _ _ _ _ _ = (_, Ok _) |- _ =>
        apply send_signals_ok in Hs
    end.
    match goal with
    | Hf : first_three _ _ = Ok _, Hn : py_len _ = Ok ?n |- _ =>
        pose proof (first_three_length _ _ _ Hf Hn) as Hlen; exists n
    end.
    destruct (3 <? _)%nat.
    + inv_sent H.
      repeat match goal with
             | Hm : send_message _ _ = (_, Ok _) |- _ =>
                 apply send_message_ok in Hm; subst
             end.
      apply done_ok in H. destruct H as [_ ->].
      eexists. split; [eassumption|]. split; [reflexivity|].
      rewrite length_app. cbn [List.length app]. lia.
    + apply done_ok in H. destruct H as [_ ->].
      eexists. split; [eassumption|]. split; [reflexivity|].
      rewrite app_nil_r. lia.
  - split; [|discriminate]. intros _. inv_sent H.
    repeat match goal with
           | Hm : send_message _ _ = (_, Ok _) |- _ =>
               apply send_message_ok in Hm; subst
           end.
    apply done_ok in H. destruct H as [_ ->]. reflexivity.
Qed.

(** X27. When send_analysis_report returns, its data is a dict and it
    has sent the header first; then, for an empty or missing
    top_opportunities, the one message that no opportunity was found;
    for n > 0 signals the heading, one message for each of the first
    min(3, n) signals, and a footer exactly when n > 3. *)
Theorem send_analysis_report_messages (data : pyval) (msgs : list string) :
  send_analysis_report fmt str_other str_int strftime_now delivered
    dict_slice_error data = (msgs, Ok tt) ->
  exists d header,
    data = PyDict d /\
    report_header fmt str_other strftime_now data
      (get_or d "market_context" (PyDict [])) = Ok header /\
    (truthy (get_or d "top_opportunities" (PyList [])) = false ->
     msgs = [header; no_opportunities]) /\
    (truthy (get_or d "top_opportunities" (PyList [])) = true ->
     exists n rest,
       py_len (get_or d "top_opportunities" (PyList [])) = Ok n /\
       msgs = header :: opportunities_heading :: rest /\
       List.length rest = (Nat.min 3 n + (if (3 <? n)%nat then 1 else 0))%nat).
Proof. exact (send_analysis_report_shape data msgs). Qed.

End Report.

(** X27 on the result of the sample batch. *)
Lemma send_analysis_report_messages_witness :
  exists msgs header rest,
    send_analysis_report no_format no_text no_digits "" always_delivered
      TypeError (result_dict sample_result) = (msgs, Ok tt) /\
    msgs = header :: opportunities_heading :: rest /\
    List.length rest = 4%nat.
Proof.
  destruct (send_analysis_report no_format no_text no_digits ""
              always_delivered TypeError (result_dict sample_result))
    as [msgs [[]|e]] eqn:H; [|vm_compute in H; discriminate H].
  destruct (send_analysis_report_messages _ _ _ _ _ _ _ _ H)
    as (d & header & Hd & _ & _ & Hsome).
  injection Hd as <-.
  destruct (Hsome eq_refl) as (n & rest & Hn & Hm & Hl).
  cbn in Hn. injection Hn as <-.
  exists msgs, header, rest. repeat split; assumption.
Defined.

(* ------------------------------------------------------------------ *)
(** ** The run as a whole *)
(* ------------------------------------------------------------------ *)

Section Run.

Variable fmt : string -> number -> string.
Variable str_other : pyval -> string.
Variable str_int : nat -> string.
Variable strftime_now : string.
Variable delivered : string -> bool.
Variable dict_slice_error : exn.
Variable start_time : string.
Variable analysis_time : string.
Variable clock : nat -> string.
Variable failure_time : string.
Variable duration : number.
Variable str_exn : exn -> string.

Local Abbreviation report :=
  (send_analysis_report fmt str_other str_int strftime_now delivered
     dict_slice_error).
Local Abbreviation alerts := (send_alerts fmt str_other delivered).
Local Abbreviation run :=
  (run_crypto_analysis fmt str_other str_int strftime_now delivered
     dict_slice_error start_time analysis_time clock failure_time duration
     str_exn).
Local Abbreviation body :=
  (pipeline fmt str_other str_int strftime_now delivered dict_slice_error
     start_time analysis_time clock duration).

Lemma pipeline_ok (collected : res pyval) (msgs : list string)
    (st : last_run) :
  body collected = (msgs, Ok st) ->
  lr_time st = start_time /\
  ((lr_status st = "Failed - No data" /\ lr_signals st = 0%nat /\
    lr_duration st = None /\ msgs = [] /\
    exists crypto_data coins,
      collected = Ok crypto_data /\
      getitem crypto_data "coins" = Ok coins /\ truthy coins = false) \/
   (lr_status st = "Failed - Analysis error" /\ lr_signals st = 0%nat /\
    lr_duration st = None /\ msgs = [] /\
    exists crypto_data technical_data analyzed_coins,
      collected = Ok crypto_data /\
      analyze_all analysis_time crypto_data = Ok technical_data /\
      getitem technical_data "analyzed_coins" = Ok analyzed_coins /\
      truthy analyzed_coins = false) \/
   (lr_status st = "Success" /\ lr_duration st = Some duration /\
    exists crypto_data technical_data result sent_report sent_alerts,
      collected = Ok crypto_data /\
      analyze_all analysis_time crypto_data = Ok technical_data /\
      selection_result str_other clock technical_data = Ok result /\
      report (result_dict result) = (sent_report, Ok tt) /\
      alerts (r_top_opportunities result) = (sent_alerts, Ok tt) /\
      msgs = sent_report ++ sent_alerts /\
      lr_signals st = List.length (r_top_opportunities result))).
Proof.
  unfold pipeline. intros H. inv_sent H.
  destruct (negb (truthy a0)) eqn:Hc.
  { apply done_ok in H. destruct H as [<- ->]. split; [reflexivity|].
    left. repeat split. apply negb_true_iff in Hc. eauto. }
  inv_sent H.
  destruct (negb (truthy a2)) eqn:Ha.
  { apply done_ok in H. destruct H as [<- ->]. split; [reflexivity|].
    right; left. repeat split. apply negb_true_iff in Ha. eauto 10. }
  inv_sent H. apply done_ok in H. destruct H as [<- ->].
  split; [reflexivity|]. right; right. repeat split.
  destruct a4, a5. rewrite app_nil_r. eauto 12.
Qed.




Lemma and_then_lift {A B : Type} (a : A) (k : A -> sent B) :
  and_then (lift (Ok a)) k = k a.
Proof. unfold and_then, lift. destruct (k a). reflexivity. Qed.










(** X28. If run_crypto_analysis ends with the status 'Success', then
    collection, analysis and selection returned, signals is the number
    of signals selected (at most 10), at least two messages were sent,
    and the time is the start time. In every other run signals is 0 and
    no duration is recorded. When the collected 'coins' is empty (or
    falsy) nothing is sent and the status is 'Failed - No data'. *)
Theorem run_crypto_analysis_status (collected : res pyval)
    (msgs : list string) (st : last_run) :
  run collected = (msgs, st) ->
  (lr_status st = "Success" ->
   exists crypto_data technical_data top,
     collected = Ok crypto_data /\
     analyze_all analysis_time crypto_data = Ok technical_data /\
     select_top_opportunities str_other clock technical_data = Ok top /\
     lr_signals st = List.length top /\
     (List.length top <= 10)%nat /\
     (2 <= List.length msgs)%nat /\
     lr_time st = start_time /\
     lr_duration st = Some duration) /\
  (lr_status st <> "Success" ->
   lr_signals st = 0%nat /\ lr_duration st = None) /\
  (forall crypto_data coins,
     collected = Ok crypto_data ->
     getitem crypto_data "coins" = Ok coins ->
     truthy coins = false ->
     msgs = [] /\ lr_status st = "Failed - No data" /\
     lr_time st = start_time).
Proof.
  intros Hrun.
  assert (Hnodata : forall crypto_data coins,
     collected = Ok crypto_data ->
     getitem crypto_data "coins" = Ok coins ->
     truthy coins = false ->
     msgs = [] /\ lr_status st = "Failed - No data" /\
     lr_time st = start_time).
  { intros crypto_data coins -> Hc Ht.
    unfold run_crypto_analysis, pipeline in Hrun.
    rewrite and_then_lift, Hc, and_then_lift, Ht in Hrun.
    cbn in Hrun. injection Hrun as <- <-. auto. }
  unfold run_crypto_analysis in Hrun.
  destruct (body collected) as [w [s|e]] eqn:Hb.
  - injection Hrun as -> ->.
    destruct (pipeline_ok _ _ _ Hb) as (Htime & Hcases).
    destruct Hcases
      as [(Hs & Hn & Hd & _)|[(Hs & Hn & Hd & _)|(Hs & Hd & Hrest)]].
    + split; [rewrite Hs; discriminate|]. split; auto.
    + split; [rewrite Hs; discriminate|]. split; auto.
    + split; [|split; [congruence | assumption]].
      intros _.
      destruct Hrest as (crypto_data & technical_data & result & w1 & w2
                         & Hc & Ha & Hr & Hrep & _ & Hm & Hn).
      exists crypto_data, technical_data, (r_top_opportunities result).
      repeat split; try assumption.
      * unfold select_top_opportunities. now rewrite Hr.
      * apply selection_result_inv in Hr.
        destruct Hr as (d & items & cs & sc & _ & _ & _ & _ & ->).
        apply firstn_le_length.
      * apply send_analysis_report_shape in Hrep.
        destruct Hrep as (d & header & _ & _ & Hnone & Hsome).
        subst msgs. rewrite length_app.
        destruct (truthy (get_or d "top_opportunities" (PyList []))).
        -- destruct (Hsome eq_refl) as (n & rest & _ & -> & _).
           cbn [List.length]. lia.
        -- rewrite (Hnone eq_refl). cbn [List.length]. lia.
  - injection Hrun as <- <-. cbn [lr_status lr_signals lr_duration].
    split; [discriminate|]. split; auto.
Qed.

End Run.


(** X28 on a batch holding the sample coin. *)
Lemma run_crypto_analysis_status_witness :
  exists msgs st,
    run_crypto_analysis no_format no_text no_digits "" always_delivered
      TypeError "09:30" "09:31" fixed_clock "09:32" (Fin 1) no_reason
      sample_collected = (msgs, st) /\
    lr_status st = "Success" /\
    lr_signals st = 1%nat /\
    (2 <= List.length msgs)%nat.
Proof.
  destruct (run_crypto_analysis no_format no_text no_digits ""
              always_delivered TypeError "09:30" "09:31" fixed_clock "09:32"
              (Fin 1) no_reason sample_collected) as [msgs st] eqn:H.
  exists msgs, st. split; [reflexivity|].
  destruct (run_crypto_analysis_status _ _ _ _ _ _ _ _ _ _ _ _ _ _ _ H)
    as (Hs & _ & _).
  assert (Hst : lr_status st = "Success" /\ lr_signals st = 1%nat).
  { vm_compute in H. injection H as <- <-. split; reflexivity. }
  destruct Hst as [Hst Hn]. split; [exact Hst|]. split; [exact Hn|].
  destruct (Hs Hst) as (c & td & top & _ & _ & _ & _ & _ & Hm & _).
  exact Hm.
Defined.
